(** * BridgeSlave-mcu: the SysTick time base (Source/UpDrive/bsp_systimer.c)

    A shallow embedding of the software-timer bank, the run-time clock,
    the blocking millisecond delay and the busy-wait microsecond delay,
    followed by the properties of the specification that concern them.

    Conventions.
    - [uint8_t], [uint32_t] and [int32_t] values are integers of [Z]; every C
      operation that can leave the type's range is followed by the wrap of
      that type ([uint8], [uint32], [int32]).
    - The array [s_tTmr] is a list updated in place with stdpp's [alter]; the
      bank is well formed when it has exactly [TMR_COUNT] entries.
    - Timer identifiers ([uint8_t _id]) are array indices and are natural
      numbers; the theorems hold for every index, hence for every [uint8_t].
    - [DISABLE_INT]/[ENABLE_INT] bracket a group of writes that the interrupt
      handler cannot split: such a group is one state update.
    - The three hooks called by the interrupt handler ([bsp_RunPer1ms],
      [bsp_RunPer10ms], [TPCRemarks]) belong to other modules.  They are
      parameters: each reads the state of this module as it is at the moment
      of the call and acts on the state of the rest of the firmware. *)

From Stdlib Require Import ZArith Lia List.
From stdpp Require Import base list.
Import ListNotations.

#[local] Open Scope Z_scope.

(** ** Machine integers *)

Definition uint8 (z : Z) : Z := z mod 2 ^ 8.
Definition uint32 (z : Z) : Z := z mod 2 ^ 32.
Definition int32 (z : Z) : Z := (z + 2 ^ 31) mod 2 ^ 32 - 2 ^ 31.

Definition UINT32_MAX : Z := 2 ^ 32 - 1.
Definition INT32_MAX : Z := 2 ^ 31 - 1.
Definition INT32_MIN : Z := - 2 ^ 31.

Definition is_uint32 (z : Z) : Prop := 0 <= z <= UINT32_MAX.
Definition is_int32 (z : Z) : Prop := INT32_MIN <= z <= INT32_MAX.

(** The literal [0x7FFFFFFF] of [SysTick_ISR] and [bsp_CheckRunTime]. *)
Definition RUNTIME_WRAP : Z := 0x7FFFFFFF.

(** ** Data model *)

(** Modelled from the spec: the declarations of [TMR_MODE_E] and [SOFT_TMR]
    are in the timer header, which is not among the sources.  The fields are
    the four that bsp_systimer.c reads and writes: [Mode] (one-shot or
    auto-reload), [Flag] (the expired latch, a [uint8_t]), [Count] and
    [PreLoad] ([uint32_t], assigned from the [uint32_t] period). *)
Inductive TMR_MODE_E : Set := TMR_ONCE_MODE | TMR_AUTO_MODE.

Record SOFT_TMR : Set := mkTmr {
  Mode : TMR_MODE_E;
  Flag : Z;
  Count : Z;
  PreLoad : Z
}.

#[global] Instance TMR_MODE_E_eq_dec : EqDecision TMR_MODE_E.
Proof. solve_decision. Defined.

Definition set_Count (c : Z) (t : SOFT_TMR) : SOFT_TMR :=
  mkTmr (Mode t) (Flag t) c (PreLoad t).
Definition set_PreLoad (p : Z) (t : SOFT_TMR) : SOFT_TMR :=
  mkTmr (Mode t) (Flag t) (Count t) p.
Definition set_Flag (f : Z) (t : SOFT_TMR) : SOFT_TMR :=
  mkTmr (Mode t) f (Count t) (PreLoad t).
Definition set_Mode (m : TMR_MODE_E) (t : SOFT_TMR) : SOFT_TMR :=
  mkTmr m (Flag t) (Count t) (PreLoad t).

(** The file-scope variables of bsp_systimer.c. *)
Record bsp_timer : Set := mkBsp {
  s_uiDelayCount : Z;          (* static volatile uint32_t *)
  s_ucTimeOutFlag : Z;         (* static volatile uint8_t  *)
  s_tTmr : list SOFT_TMR;      (* static SOFT_TMR s_tTmr[TMR_COUNT] *)
  g_iRunTime : Z               (* __IO int32_t *)
}.

Definition set_delay (c f : Z) (st : bsp_timer) : bsp_timer :=
  mkBsp c f (s_tTmr st) (g_iRunTime st).
Definition set_tTmr (l : list SOFT_TMR) (st : bsp_timer) : bsp_timer :=
  mkBsp (s_uiDelayCount st) (s_ucTimeOutFlag st) l (g_iRunTime st).
Definition set_RunTime (r : Z) (st : bsp_timer) : bsp_timer :=
  mkBsp (s_uiDelayCount st) (s_ucTimeOutFlag st) (s_tTmr st) r.

(** A call either returns, or never does: the out-of-range branch of the arm
    and stop operations prints a diagnostic and spins in [while(1)].
    [Halts st] records the state in which the call spins. *)
Inductive outcome (A : Type) : Type :=
  | Returns (a : A)
  | Halts (st : bsp_timer).
Arguments Returns {A} a.
Arguments Halts {A} st.

(** ** The per-slot decrement, [bsp_SoftTimerDec] *)

Definition bsp_SoftTimerDec (_tmr : SOFT_TMR) : SOFT_TMR :=
  if 0 <? Count _tmr then
    let t1 := set_Count (uint32 (Count _tmr - 1)) _tmr in
    if Count t1 =? 0 then
      let t2 := set_Flag 1 t1 in
      if decide (Mode t2 = TMR_AUTO_MODE)
      then set_Count (PreLoad t2) t2
      else t2
    else t1
  else _tmr.

(** What one round of the simulation (a tick, then a query) does to the slot
    that is queried: [bsp_SoftTimerDec], then the test and the clearing of
    [Flag] in [bsp_CheckTimer]. *)
Definition slot_poll (t : SOFT_TMR) : Z * SOFT_TMR :=
  let t1 := bsp_SoftTimerDec t in
  if Flag t1 =? 1 then (1, set_Flag 0 t1) else (0, t1).

(** The slot after [k] rounds. *)
Definition slot_run (k : nat) (t : SOFT_TMR) : SOFT_TMR :=
  Nat.iter k (fun t => snd (slot_poll t)) t.

(** What the simulation can do next: let a tick go by, or query a slot. *)
Inductive action : Set := Tick | Query.

(** What [bsp_CheckTimer] does to the slot it queries. *)
Definition slot_query (t : SOFT_TMR) : Z * SOFT_TMR :=
  if Flag t =? 1 then (1, set_Flag 0 t) else (0, t).

(** A sequence of ticks and queries, seen from the slot that is queried. *)
Fixpoint slot_schedule (acts : list action) (t : SOFT_TMR)
  : list Z * SOFT_TMR :=
  match acts with
  | [] => ([], t)
  | Tick :: rest => slot_schedule rest (bsp_SoftTimerDec t)
  | Query :: rest =>
      let '(r, t1) := slot_query t in
      let '(rs, t2) := slot_schedule rest t1 in
      (r :: rs, t2)
  end.

(** The number of ticks in a sequence of actions. *)
Fixpoint tick_count (acts : list action) : Z :=
  match acts with
  | [] => 0
  | Tick :: rest => 1 + tick_count rest
  | Query :: rest => tick_count rest
  end.

(** The number of expiries that a list of answers reports: the answers are
    0 or 1, so their sum. *)
Fixpoint expiries (answers : list Z) : Z :=
  match answers with
  | [] => 0
  | r :: rest => r + expiries rest
  end.

(** The ranges of the C types, for a slot and for the module's variables. *)
Definition slot_ok (t : SOFT_TMR) : Prop :=
  (Flag t = 0 \/ Flag t = 1)
  /\ 0 <= Count t <= UINT32_MAX /\ 0 <= PreLoad t <= UINT32_MAX.

Section TimerBank.

(** [TMR_COUNT] is a macro of the absent header; the bank is verified for
    every size. *)
Variable TMR_COUNT : nat.

(** [s_tTmr] has [TMR_COUNT] elements. *)
Definition bank_wf (st : bsp_timer) : Prop := length (s_tTmr st) = TMR_COUNT.

(** ** [SysTickTimer_Init]: the state after start-up.
    The loop stores the same four zeros in every slot; the statics of the
    delay service and the clock keep their initialisers. *)
Definition SysTickTimer_Init : bsp_timer :=
  mkBsp 0 0 (replicate TMR_COUNT (mkTmr TMR_ONCE_MODE 0 0 0)) 0.

(** The loop of [SysTickTimer_Init] on a running module: the four stores in
    every slot.  The call of [SysTick_Config] that follows programs the
    hardware counter and touches none of the module's variables. *)
Definition SysTickTimer_Init_loop (st : bsp_timer) : bsp_timer :=
  set_tTmr
    (foldl (fun l i =>
              alter (fun t => set_Mode TMR_ONCE_MODE
                       (set_Flag 0 (set_PreLoad 0 (set_Count 0 t)))) i l)
           (s_tTmr st) (seq 0 TMR_COUNT))
    st.

(** Every variable of the module within the range of its C type, the clock
    below its wrap point. *)
Definition state_ok (st : bsp_timer) : Prop :=
  bank_wf st
  /\ Forall slot_ok (s_tTmr st)
  /\ 0 <= s_uiDelayCount st <= UINT32_MAX
  /\ (s_ucTimeOutFlag st = 0 \/ s_ucTimeOutFlag st = 1)
  /\ 0 <= g_iRunTime st < RUNTIME_WRAP.

(** ** The bank's operations *)

Definition bsp_StartTimer (_id : nat) (_period : Z) (st : bsp_timer)
  : outcome bsp_timer :=
  if decide (TMR_COUNT <= _id)%nat then Halts st
  else
    Returns (set_tTmr
      (alter (fun t => set_Mode TMR_ONCE_MODE
                (set_Flag 0 (set_PreLoad _period (set_Count _period t))))
             _id (s_tTmr st)) st).

Definition bsp_StartAutoTimer (_id : nat) (_period : Z) (st : bsp_timer)
  : outcome bsp_timer :=
  if decide (TMR_COUNT <= _id)%nat then Halts st
  else
    Returns (set_tTmr
      (alter (fun t => set_Mode TMR_AUTO_MODE
                (set_Flag 0 (set_PreLoad _period (set_Count _period t))))
             _id (s_tTmr st)) st).

Definition bsp_StopTimer (_id : nat) (st : bsp_timer) : outcome bsp_timer :=
  if decide (TMR_COUNT <= _id)%nat then Halts st
  else
    Returns (set_tTmr
      (alter (fun t => set_Mode TMR_ONCE_MODE (set_Flag 0 (set_Count 0 t)))
             _id (s_tTmr st)) st).

(** [bsp_CheckTimer] returns the [uint8_t] result and the state it leaves.
    The last case cannot occur in a well-formed bank. *)
Definition bsp_CheckTimer (_id : nat) (st : bsp_timer) : Z * bsp_timer :=
  if decide (TMR_COUNT <= _id)%nat then (0, st)
  else
    match s_tTmr st !! _id with
    | Some t =>
        if Flag t =? 1
        then (1, set_tTmr (alter (set_Flag 0) _id (s_tTmr st)) st)
        else (0, st)
    | None => (0, st)
    end.

(** ** The run-time clock *)

Definition bsp_GetRunTime (st : bsp_timer) : Z := g_iRunTime st.

Definition bsp_CheckRunTime (_LastTime : Z) (st : bsp_timer) : Z :=
  let now_time := g_iRunTime st in
  if _LastTime <=? now_time
  then int32 (now_time - _LastTime)
  else int32 (int32 (RUNTIME_WRAP - _LastTime) + now_time).

(** The specification's account of the elapsed time, in unbounded integers
    and with the wrap point as a parameter: [now - last] if [now >= last],
    else [SENTINEL - last + now]. *)
Definition elapsed_since_spec (SENTINEL now last : Z) : Z :=
  if last <=? now then now - last else SENTINEL - last + now.

(** ** The tick interrupt handler, [SysTick_ISR] *)

(** The three statements on the file-scope variables, in source order. *)
Definition isr_delay (st : bsp_timer) : bsp_timer :=
  if 0 <? s_uiDelayCount st then
    let c := uint32 (s_uiDelayCount st - 1) in
    if c =? 0 then set_delay c 1 st else set_delay c (s_ucTimeOutFlag st) st
  else st.

(** [for (i = 0; i < TMR_COUNT; i++) bsp_SoftTimerDec(&s_tTmr[i]);] *)
Definition isr_soft_timers (st : bsp_timer) : bsp_timer :=
  set_tTmr
    (foldl (fun l i => alter bsp_SoftTimerDec i l) (s_tTmr st) (seq 0 TMR_COUNT))
    st.

Definition isr_runtime (st : bsp_timer) : bsp_timer :=
  let r := int32 (g_iRunTime st + 1) in
  if r =? RUNTIME_WRAP then set_RunTime 0 st else set_RunTime r st.

(** The three together: what one tick does to the module's variables. *)
Definition isr_effect (t : bsp_timer) : bsp_timer :=
  isr_runtime (isr_soft_timers (isr_delay t)).

Section Hooks.

(** The state of the rest of the firmware, and the three hooks. *)
Context {World : Type}.
Variables bsp_RunPer1ms bsp_RunPer10ms TPCRemarks : bsp_timer -> World -> World.

(** The whole machine: this module, the handler's [static uint8_t s_count],
    and the rest of the firmware. *)
Record system : Type := mkSys {
  tm : bsp_timer;
  s_count : Z;
  ext : World
}.

Definition SysTick_ISR (s : system) : system :=
  let t1 := isr_delay (tm s) in
  let t2 := isr_soft_timers t1 in
  let t3 := isr_runtime t2 in
  let w1 := bsp_RunPer1ms t3 (ext s) in
  let c := uint8 (s_count s + 1) in
  if 10 <=? c
  then mkSys t3 0 (TPCRemarks t3 (bsp_RunPer10ms t3 w1))
  else mkSys t3 c (TPCRemarks t3 w1).

(** [n] consecutive ticks. *)
Definition ticks (n : nat) (s : system) : system := Nat.iter n SysTick_ISR s.

(** The same for a number of ticks in binary, for the long runs of the
    run-time clock. *)
Definition ticksN (n : N) (s : system) : system := N.iter n SysTick_ISR s.

(** Foreground code acts on the module's variables only. *)
Definition with_tm (t : bsp_timer) (s : system) : system :=
  mkSys t (s_count s) (ext s).

(** *** The simulated ticks of the timer bank

    One round of the simulation: a tick, then a query of slot [_id] by the
    foreground. *)
Definition poll (_id : nat) (s : system) : Z * system :=
  let s1 := SysTick_ISR s in
  let '(r, t) := bsp_CheckTimer _id (tm s1) in
  (r, with_tm t s1).

(** [n] rounds; the answers, oldest first, and the final state. *)
Fixpoint poll_trace (_id : nat) (n : nat) (s : system) : list Z * system :=
  match n with
  | O => ([], s)
  | S n' =>
      let '(r, s1) := poll _id s in
      let '(rs, s2) := poll_trace _id n' s1 in
      (r :: rs, s2)
  end.

(** The simulation with any interleaving of ticks and queries of slot [_id];
    the answers of the queries, oldest first, and the final state. *)
Fixpoint schedule (_id : nat) (acts : list action) (s : system)
  : list Z * system :=
  match acts with
  | [] => ([], s)
  | Tick :: rest => schedule _id rest (SysTick_ISR s)
  | Query :: rest =>
      let '(r, t) := bsp_CheckTimer _id (tm s) in
      let '(rs, s') := schedule _id rest (with_tm t s) in
      (r :: rs, s')
  end.

(** ** The blocking delay, [bsp_DelayMS]

    The two stores between [DISABLE_INT] and [ENABLE_INT]. *)
Definition delay_arm (n : Z) (st : bsp_timer) : bsp_timer := set_delay n 0 st.

(** The [while (1)] loop: the foreground reads [s_ucTimeOutFlag]; while it is
    not 1 the only thing that changes the state is the next tick.  [fuel]
    bounds the number of ticks that are simulated; the result is the number
    of ticks that went by before the loop was left, with the state then. *)
Fixpoint delay_wait (fuel : nat) (s : system) : option (nat * system) :=
  match fuel with
  | O => if s_ucTimeOutFlag (tm s) =? 1 then Some (O, s) else None
  | S fuel' =>
      if s_ucTimeOutFlag (tm s) =? 1 then Some (O, s)
      else
        match delay_wait fuel' (SysTick_ISR s) with
        | Some (k, s') => Some (S k, s')
        | None => None
        end
  end.

Definition bsp_DelayMS (n : Z) (fuel : nat) (s : system)
  : option (nat * system) :=
  if n =? 0 then Some (O, s)
  else
    let n := if n =? 1 then 2 else n in
    delay_wait fuel (with_tm (delay_arm n (tm s)) s).

(** The module's variables in range and the handler's sub-counter below
    10. *)
Definition sys_ok (s : system) : Prop :=
  state_ok (tm s) /\ 0 <= s_count s < 10.

(** [SysTick_Handler], the vector entry, only calls [SysTick_ISR]. *)
Definition SysTick_Handler (s : system) : system := SysTick_ISR s.

(** The states the firmware can be in: start-up, then any sequence of ticks
    and of calls of the module's functions that return, with arguments of
    the declared types. *)
Inductive reachable : system -> Prop :=
  | reach_boot w : reachable (mkSys SysTickTimer_Init 0 w)
  | reach_tick s : reachable s -> reachable (SysTick_Handler s)
  | reach_init s :
      reachable s -> reachable (with_tm (SysTickTimer_Init_loop (tm s)) s)
  | reach_start s _id _period st :
      reachable s -> is_uint32 _period ->
      bsp_StartTimer _id _period (tm s) = Returns st ->
      reachable (with_tm st s)
  | reach_start_auto s _id _period st :
      reachable s -> is_uint32 _period ->
      bsp_StartAutoTimer _id _period (tm s) = Returns st ->
      reachable (with_tm st s)
  | reach_stop s _id st :
      reachable s -> bsp_StopTimer _id (tm s) = Returns st ->
      reachable (with_tm st s)
  | reach_check s _id :
      reachable s -> reachable (with_tm (snd (bsp_CheckTimer _id (tm s))) s)
  | reach_delay s n fuel k s' :
      reachable s -> is_uint32 n ->
      bsp_DelayMS n fuel s = Some (k, s') ->
      reachable s'.

End Hooks.
End TimerBank.

Arguments system : clear implicits.
Arguments mkSys {World} tm s_count ext.
Arguments tm {World} s.
Arguments s_count {World} s.
Arguments ext {World} s.

(** ** Hooks that record what they are shown

    An instance of the three hooks for stating what the handler shows them:
    the rest of the firmware is the list of the calls made so far, each with
    the state of this module at the call. *)
Inductive hook_call : Set :=
  | Call_RunPer1ms (seen : bsp_timer)
  | Call_RunPer10ms (seen : bsp_timer)
  | Call_TPCRemarks (seen : bsp_timer).

Definition record_call (c : bsp_timer -> hook_call)
  : bsp_timer -> list hook_call -> list hook_call :=
  fun t w => w ++ [c t].

Definition SysTick_ISR_recorded (TMR_COUNT : nat)
  : system (list hook_call) -> system (list hook_call) :=
  SysTick_ISR TMR_COUNT (record_call Call_RunPer1ms)
    (record_call Call_RunPer10ms) (record_call Call_TPCRemarks).

Definition ticks_recorded (TMR_COUNT : nat) (n : nat)
  : system (list hook_call) -> system (list hook_call) :=
  Nat.iter n (SysTick_ISR_recorded TMR_COUNT).

(** The calls that tick number [k] (counted from 1) is expected to make,
    all three shown the same state [t]. *)
Definition calls_of_tick (k : nat) (t : bsp_timer) : list hook_call :=
  [Call_RunPer1ms t]
  ++ (if (Z.of_nat k mod 10 =? 0) then [Call_RunPer10ms t] else [])
  ++ [Call_TPCRemarks t].

(** Hooks that do nothing, for running the module alone. *)
Definition no_hook : bsp_timer -> unit -> unit := fun _ w => w.

(** A bank of four slots just after start-up, run alone. *)
Definition boot4 : system unit := mkSys (SysTickTimer_Init 4) 0 tt.

(** A bank of four slots at work: a one-shot timer counting, two expiries
    not yet queried (one auto-reload, one one-shot), an auto-reload timer
    that has just reloaded with its flag up, a blocking delay in progress
    and the clock at 17. *)
Definition busy4 : system unit :=
  mkSys (mkBsp 6 0
           [mkTmr TMR_ONCE_MODE 0 5 5; mkTmr TMR_AUTO_MODE 1 3 4;
            mkTmr TMR_ONCE_MODE 1 0 9; mkTmr TMR_AUTO_MODE 1 2 2]
           17)
        7 tt.

(** ** The microsecond delay, [bsp_DelayUS]

    The hardware is the value of [SysTick->LOAD] and the successive values
    that reading [SysTick->VAL] gives.  [SystemCoreClock] is a variable of the
    vendor's start-up code. *)
Definition us_to_ticks (SystemCoreClock n : Z) : Z :=
  uint32 (n * (SystemCoreClock / 1000000)).

(** One pass of the loop body on a new reading [tnow]: the new [tcnt]. *)
Definition us_accumulate (reload told tnow tcnt : Z) : Z :=
  if tnow <? told
  then uint32 (tcnt + uint32 (told - tnow))
  else uint32 (tcnt + uint32 (uint32 (reload - tnow) + told)).

(** The loop: [reads] are the values of [SysTick->VAL] still to come.  The
    result is the number of readings taken in the loop when it is left and
    the value of [tcnt] then; [None] when the readings end with the loop
    still spinning. *)
Fixpoint us_loop (reload ticks told tcnt : Z) (reads : list Z)
  : option (nat * Z) :=
  match reads with
  | [] => None
  | tnow :: rest =>
      if tnow =? told
      then option_map (fun r => (S (fst r), snd r))
                      (us_loop reload ticks told tcnt rest)
      else
        let tcnt' := us_accumulate reload told tnow tcnt in
        if ticks <=? tcnt' then Some (1%nat, tcnt')
        else option_map (fun r => (S (fst r), snd r))
                        (us_loop reload ticks tnow tcnt' rest)
  end.

(** [VAL] is the sequence of all readings: the first one is [told]. *)
Definition bsp_DelayUS (SystemCoreClock reload n : Z) (VAL : list Z)
  : option (nat * Z) :=
  match VAL with
  | [] => None
  | told :: reads => us_loop reload (us_to_ticks SystemCoreClock n) told 0 reads
  end.

(** The specification's account of the same wait, in unbounded integers: the
    magnitude of the counter's decrease between two readings, and its sum
    over a sequence of readings. *)
Definition decrease (reload told tnow : Z) : Z :=
  if tnow =? told then 0
  else if tnow <? told then told - tnow
  else reload - tnow + told.

Fixpoint elapsed (reload told : Z) (reads : list Z) : Z :=
  match reads with
  | [] => 0
  | tnow :: rest => decrease reload told tnow + elapsed reload tnow rest
  end.

(** * Properties *)

(** ** Machine integers *)

Lemma uint32_small z : 0 <= z <= UINT32_MAX -> uint32 z = z.
Proof. unfold uint32, UINT32_MAX. intros H. apply Z.mod_small. lia. Qed.

Lemma uint8_small z : 0 <= z < 256 -> uint8 z = z.
Proof. unfold uint8. intros H. apply Z.mod_small. lia. Qed.

Lemma int32_small z : INT32_MIN <= z <= INT32_MAX -> int32 z = z.
Proof.
  unfold int32, INT32_MIN, INT32_MAX. intros H.
  rewrite Z.mod_small by lia. lia.
Qed.

Lemma uint32_range z : 0 <= uint32 z <= UINT32_MAX.
Proof.
  unfold uint32, UINT32_MAX.
  pose proof (Z.mod_pos_bound z (2 ^ 32) ltac:(lia)). lia.
Qed.

(** ** The per-slot decrement *)

Lemma SoftTimerDec_inert t : Count t = 0 -> bsp_SoftTimerDec t = t.
Proof. intros H. unfold bsp_SoftTimerDec. rewrite H. reflexivity. Qed.

Lemma SoftTimerDec_running m f c pl :
  1 < c <= UINT32_MAX ->
  bsp_SoftTimerDec (mkTmr m f c pl) = mkTmr m f (c - 1) pl.
Proof.
  intros H. unfold bsp_SoftTimerDec; simpl.
  rewrite uint32_small by lia.
  destruct (Z.ltb_spec 0 c); [|lia].
  destruct (Z.eqb_spec (c - 1) 0); [lia|]. reflexivity.
Qed.

Lemma SoftTimerDec_once_expires f pl :
  bsp_SoftTimerDec (mkTmr TMR_ONCE_MODE f 1 pl) = mkTmr TMR_ONCE_MODE 1 0 pl.
Proof. reflexivity. Qed.

Lemma SoftTimerDec_auto_expires f pl :
  bsp_SoftTimerDec (mkTmr TMR_AUTO_MODE f 1 pl) = mkTmr TMR_AUTO_MODE 1 pl pl.
Proof. reflexivity. Qed.

(** The handler's loop over the bank is a map of the decrement. *)
Lemma foldl_alter_seq {A} (f : A -> A) (l2 l1 : list A) :
  foldl (fun l i => alter f i l) (l1 ++ l2) (seq (length l1) (length l2))
  = l1 ++ (f <$> l2).
Proof.
  revert l1. induction l2 as [|x l2 IH]; intros l1; simpl.
  - reflexivity.
  - rewrite (alter_app_r_alt f l1 (x :: l2)) by lia.
    rewrite Nat.sub_diag. simpl.
    specialize (IH (l1 ++ [f x])).
    rewrite length_app, Nat.add_1_r in IH. simpl in IH.
    rewrite <- !app_assoc in IH. simpl in IH. exact IH.
Qed.

(** ** One slot under the simulation *)

Lemma slot_poll_inert m c pl :
  c = 0 -> slot_poll (mkTmr m 0 c pl) = (0, mkTmr m 0 c pl).
Proof. intros ->. reflexivity. Qed.

Lemma slot_poll_running m c pl :
  1 < c <= UINT32_MAX ->
  slot_poll (mkTmr m 0 c pl) = (0, mkTmr m 0 (c - 1) pl).
Proof.
  intros H. unfold slot_poll. rewrite SoftTimerDec_running by assumption.
  reflexivity.
Qed.

Lemma slot_poll_once_expires pl :
  slot_poll (mkTmr TMR_ONCE_MODE 0 1 pl) = (1, mkTmr TMR_ONCE_MODE 0 0 pl).
Proof. reflexivity. Qed.

Lemma slot_poll_auto_expires pl :
  slot_poll (mkTmr TMR_AUTO_MODE 0 1 pl) = (1, mkTmr TMR_AUTO_MODE 0 pl pl).
Proof. reflexivity. Qed.

Lemma slot_run_S k t : slot_run (S k) t = snd (slot_poll (slot_run k t)).
Proof. reflexivity. Qed.

(** A disarmed slot stays as it is. *)
Lemma slot_run_inert k m pl :
  slot_run k (mkTmr m 0 0 pl) = mkTmr m 0 0 pl.
Proof.
  induction k as [|k IH]; [reflexivity|].
  rewrite slot_run_S, IH. reflexivity.
Qed.

(** A one-shot slot counts down to 0 and stays there. *)
Lemma slot_run_once k p pl :
  0 < p <= UINT32_MAX ->
  slot_run k (mkTmr TMR_ONCE_MODE 0 p pl)
  = mkTmr TMR_ONCE_MODE 0 (if Z.of_nat k <? p then p - Z.of_nat k else 0) pl.
Proof.
  intros Hp. induction k as [|k IH].
  - change (slot_run 0 ?t) with t. change (Z.of_nat 0) with 0.
    destruct (Z.ltb_spec 0 p); [|lia]. f_equal; lia.
  - rewrite slot_run_S, IH.
    destruct (Z.ltb_spec (Z.of_nat k) p) as [Hk|Hk];
      destruct (Z.ltb_spec (Z.of_nat (S k)) p) as [Hk'|Hk']; try lia.
    + rewrite slot_poll_running by lia. simpl. f_equal; lia.
    + replace (p - Z.of_nat k) with 1 by lia. reflexivity.
    + reflexivity.
Qed.

Lemma mod_succ k p :
  0 < p ->
  (k + 1) mod p = if k mod p + 1 =? p then 0 else k mod p + 1.
Proof.
  intros Hp. pose proof (Z.mod_pos_bound k p Hp) as Hb.
  rewrite <- Zplus_mod_idemp_l.
  destruct (Z.eqb_spec (k mod p + 1) p) as [E|E].
  - rewrite E. apply Z_mod_same_full.
  - apply Z.mod_small. lia.
Qed.

(** An auto-reload slot counts down from its period again and again. *)
Lemma slot_run_auto k p :
  0 < p <= UINT32_MAX ->
  slot_run k (mkTmr TMR_AUTO_MODE 0 p p)
  = mkTmr TMR_AUTO_MODE 0 (p - Z.of_nat k mod p) p.
Proof.
  intros Hp. induction k as [|k IH].
  - change (slot_run 0 ?t) with t. change (Z.of_nat 0) with 0.
    rewrite Z.mod_0_l by lia. f_equal; lia.
  - rewrite slot_run_S, IH.
    pose proof (Z.mod_pos_bound (Z.of_nat k) p ltac:(lia)) as Hb.
    rewrite Nat2Z.inj_succ, <- Z.add_1_r, mod_succ by lia.
    destruct (Z.eqb_spec (Z.of_nat k mod p + 1) p) as [E|E].
    + replace (p - Z.of_nat k mod p) with 1 by lia.
      rewrite slot_poll_auto_expires. simpl. f_equal; lia.
    + rewrite slot_poll_running by lia. simpl. f_equal; lia.
Qed.

(** When the count of an auto-reload slot stands at 1: the next tick is a
    multiple of the period. *)
Lemma auto_count_one k p :
  0 < p ->
  1 <= p - k mod p <= p /\ (p - k mod p = 1 <-> (p | k + 1)).
Proof.
  intros Hp. pose proof (Z.mod_pos_bound k p Hp) as Hb.
  split; [lia|].
  rewrite <- Z.mod_divide by lia. rewrite mod_succ by assumption.
  destruct (Z.eqb_spec (k mod p + 1) p); lia.
Qed.

(** ** The interrupt handler and the simulation *)

Section HandlerFacts.

Variable TMR_COUNT : nat.
Context {World : Type}.
Variables bsp_RunPer1ms bsp_RunPer10ms TPCRemarks : bsp_timer -> World -> World.

#[local] Abbreviation ISR := (SysTick_ISR TMR_COUNT bsp_RunPer1ms bsp_RunPer10ms TPCRemarks).
#[local] Abbreviation run := (ticks TMR_COUNT bsp_RunPer1ms bsp_RunPer10ms TPCRemarks).
#[local] Abbreviation runN := (ticksN TMR_COUNT bsp_RunPer1ms bsp_RunPer10ms TPCRemarks).
#[local] Abbreviation round := (poll TMR_COUNT bsp_RunPer1ms bsp_RunPer10ms TPCRemarks).
#[local] Abbreviation rounds := (poll_trace TMR_COUNT bsp_RunPer1ms bsp_RunPer10ms TPCRemarks).
#[local] Abbreviation wf := (bank_wf TMR_COUNT).

(** What a tick does to the variables of the module does not depend on the
    hooks. *)
Lemma tm_ISR s : tm (ISR s) = isr_effect TMR_COUNT (tm s).
Proof. unfold SysTick_ISR, isr_effect. destruct (10 <=? _); reflexivity. Qed.

Lemma s_tTmr_isr_delay t : s_tTmr (isr_delay t) = s_tTmr t.
Proof.
  unfold isr_delay. destruct (0 <? _); [|reflexivity].
  destruct (_ =? 0); reflexivity.
Qed.

Lemma s_tTmr_isr_runtime t : s_tTmr (isr_runtime t) = s_tTmr t.
Proof. unfold isr_runtime. destruct (_ =? _); reflexivity. Qed.

Lemma s_tTmr_isr_soft_timers t :
  wf t -> s_tTmr (isr_soft_timers TMR_COUNT t) = bsp_SoftTimerDec <$> s_tTmr t.
Proof.
  unfold bank_wf, isr_soft_timers. intros H; simpl.
  rewrite <- H. exact (foldl_alter_seq bsp_SoftTimerDec (s_tTmr t) []).
Qed.

Lemma s_tTmr_ISR s :
  wf (tm s) -> s_tTmr (tm (ISR s)) = bsp_SoftTimerDec <$> s_tTmr (tm s).
Proof.
  intros H. rewrite tm_ISR. unfold isr_effect.
  rewrite s_tTmr_isr_runtime, s_tTmr_isr_soft_timers.
  - now rewrite s_tTmr_isr_delay.
  - unfold bank_wf. now rewrite s_tTmr_isr_delay.
Qed.

Lemma wf_ISR s : wf (tm s) -> wf (tm (ISR s)).
Proof.
  intros H. unfold bank_wf. rewrite s_tTmr_ISR by assumption.
  now rewrite length_fmap.
Qed.

Lemma wf_run n s : wf (tm s) -> wf (tm (run n s)).
Proof. induction n; simpl; intros H; [assumption|]. apply wf_ISR; auto. Qed.

Lemma slot_ISR i s t :
  wf (tm s) -> s_tTmr (tm s) !! i = Some t ->
  s_tTmr (tm (ISR s)) !! i = Some (bsp_SoftTimerDec t).
Proof.
  intros H Hi. rewrite s_tTmr_ISR by assumption.
  rewrite list_lookup_fmap, Hi. reflexivity.
Qed.

Lemma slot_run_ticks n i s t :
  wf (tm s) -> s_tTmr (tm s) !! i = Some t ->
  s_tTmr (tm (run n s)) !! i = Some (Nat.iter n bsp_SoftTimerDec t).
Proof.
  intros H Hi. induction n; simpl; [assumption|].
  apply slot_ISR; [apply wf_run; assumption | exact IHn].
Qed.

(** One round of the simulation, seen from the slot that is queried. *)
Lemma round_slot i s t :
  wf (tm s) -> s_tTmr (tm s) !! i = Some t ->
  fst (round i s) = fst (slot_poll t)
  /\ s_tTmr (tm (snd (round i s))) !! i = Some (snd (slot_poll t))
  /\ wf (tm (snd (round i s))).
Proof.
  intros H Hi.
  pose proof (slot_ISR i s t H Hi) as Hs.
  pose proof (wf_ISR s H) as Hw.
  assert (Hlt : (i < TMR_COUNT)%nat).
  { rewrite <- H. eapply lookup_lt_Some; eassumption. }
  unfold poll, bsp_CheckTimer, slot_poll.
  destruct (decide (TMR_COUNT <= i)%nat) as [Hge|_]; [lia|].
  rewrite Hs.
  destruct (Flag (bsp_SoftTimerDec t) =? 1); simpl.
  - split; [reflexivity|]. split.
    + rewrite list_lookup_alter_eq, Hs. reflexivity.
    + unfold bank_wf; simpl. rewrite length_alter. exact Hw.
  - auto.
Qed.

Lemma rounds_slot n i s t :
  wf (tm s) -> s_tTmr (tm s) !! i = Some t ->
  fst (rounds i n s) = (fun k => fst (slot_poll (slot_run k t))) <$> seq 0 n
  /\ s_tTmr (tm (snd (rounds i n s))) !! i = Some (slot_run n t)
  /\ wf (tm (snd (rounds i n s))).
Proof.
  revert s t. induction n as [|n IH]; intros s t H Hi.
  - simpl. auto.
  - destruct (round_slot i s t H Hi) as (Hr & Hs & Hw).
    simpl. destruct (round i s) as [r s1] eqn:E1. simpl in *.
    destruct (IH s1 _ Hw Hs) as (Hr' & Hs' & Hw').
    destruct (rounds i n s1) as [rs s2] eqn:E2. simpl in *.
    assert (Hrun : forall k, slot_run k (snd (slot_poll t)) = slot_run (S k) t).
    { intros k. unfold slot_run. now rewrite Nat.iter_succ_r. }
    split; [|split].
    + rewrite Hr, Hr'. f_equal.
      rewrite <- fmap_S_seq, <- list_fmap_compose.
      apply list_fmap_ext. intros j x _. simpl. now rewrite Hrun.
    + now rewrite Hs', Hrun.
    + exact Hw'.
Qed.

(** The foreground operations, seen from the slot they act on. *)
Lemma tm_with_tm t (s : system World) : tm (with_tm t s) = t.
Proof. reflexivity. Qed.

Lemma arm_slot (f : SOFT_TMR -> SOFT_TMR) i st :
  wf st -> (i < TMR_COUNT)%nat ->
  exists t, s_tTmr st !! i = Some t
    /\ s_tTmr (set_tTmr (alter f i (s_tTmr st)) st) !! i = Some (f t)
    /\ wf (set_tTmr (alter f i (s_tTmr st)) st).
Proof.
  intros H Hi. unfold bank_wf in H.
  destruct (lookup_lt_is_Some_2 (s_tTmr st) i ltac:(lia)) as [t Ht].
  exists t. split; [assumption|]. split.
  - simpl. rewrite list_lookup_alter_eq, Ht. reflexivity.
  - unfold bank_wf; simpl. now rewrite length_alter.
Qed.

Lemma StartTimer_slot i p st :
  wf st -> (i < TMR_COUNT)%nat ->
  exists st1, bsp_StartTimer TMR_COUNT i p st = Returns st1
    /\ s_tTmr st1 !! i = Some (mkTmr TMR_ONCE_MODE 0 p p) /\ wf st1.
Proof.
  intros H Hi. unfold bsp_StartTimer.
  destruct (decide (TMR_COUNT <= i)%nat); [lia|].
  eexists. split; [reflexivity|].
  destruct (arm_slot (fun t => set_Mode TMR_ONCE_MODE
              (set_Flag 0 (set_PreLoad p (set_Count p t)))) i st H Hi)
    as (t & _ & Hs & Hw).
  split; [exact Hs | exact Hw].
Qed.

Lemma StartAutoTimer_slot i p st :
  wf st -> (i < TMR_COUNT)%nat ->
  exists st1, bsp_StartAutoTimer TMR_COUNT i p st = Returns st1
    /\ s_tTmr st1 !! i = Some (mkTmr TMR_AUTO_MODE 0 p p) /\ wf st1.
Proof.
  intros H Hi. unfold bsp_StartAutoTimer.
  destruct (decide (TMR_COUNT <= i)%nat); [lia|].
  eexists. split; [reflexivity|].
  destruct (arm_slot (fun t => set_Mode TMR_AUTO_MODE
              (set_Flag 0 (set_PreLoad p (set_Count p t)))) i st H Hi)
    as (t & _ & Hs & Hw).
  split; [exact Hs | exact Hw].
Qed.

Lemma StopTimer_slot i st :
  wf st -> (i < TMR_COUNT)%nat ->
  exists st1 t, bsp_StopTimer TMR_COUNT i st = Returns st1
    /\ s_tTmr st !! i = Some t
    /\ s_tTmr st1 !! i = Some (mkTmr TMR_ONCE_MODE 0 0 (PreLoad t)) /\ wf st1.
Proof.
  intros H Hi. unfold bsp_StopTimer.
  destruct (decide (TMR_COUNT <= i)%nat); [lia|].
  destruct (arm_slot (fun t => set_Mode TMR_ONCE_MODE
              (set_Flag 0 (set_Count 0 t))) i st H Hi)
    as (t & Ht & Hs & Hw).
  eexists; exists t. split; [reflexivity|].
  split; [exact Ht|]. split; [exact Hs | exact Hw].
Qed.

Lemma CheckTimer_expired i st m c pl :
  (i < TMR_COUNT)%nat -> s_tTmr st !! i = Some (mkTmr m 1 c pl) ->
  exists st1, bsp_CheckTimer TMR_COUNT i st = (1, st1)
    /\ s_tTmr st1 !! i = Some (mkTmr m 0 c pl).
Proof.
  intros Hi Ht. unfold bsp_CheckTimer.
  destruct (decide (TMR_COUNT <= i)%nat); [lia|].
  rewrite Ht. simpl. eexists. split; [reflexivity|].
  simpl. rewrite list_lookup_alter_eq, Ht. reflexivity.
Qed.

Lemma CheckTimer_idle i st m c pl :
  s_tTmr st !! i = Some (mkTmr m 0 c pl) ->
  bsp_CheckTimer TMR_COUNT i st = (0, st).
Proof.
  intros Ht. unfold bsp_CheckTimer.
  destruct (decide (TMR_COUNT <= i)%nat); [reflexivity|].
  rewrite Ht. reflexivity.
Qed.

(** C1. After [bsp_StartTimer(id, p)] with a valid [id] and [p > 0], with a
    query of the slot after each tick: the query answers 0 after each of the
    first [p - 1] ticks, 1 after tick [p] and 0 after every later tick.  The
    expiry is reported once: after tick [p] a first query answers 1 and a
    second one, with no tick in between, answers 0. *)
Theorem start_once_reports_one_expiry (id : nat) (p : Z) (s : system World) :
  wf (tm s) -> (id < TMR_COUNT)%nat -> 0 < p <= UINT32_MAX ->
  exists st1, bsp_StartTimer TMR_COUNT id p (tm s) = Returns st1
    /\ (forall n, fst (rounds id n (with_tm st1 s))
                 = (fun k => if Z.of_nat k =? p then 1 else 0) <$> seq 1 n)
    /\ (exists st2 st3,
          bsp_CheckTimer TMR_COUNT id
            (tm (ISR (snd (rounds id (Z.to_nat (p - 1)) (with_tm st1 s)))))
          = (1, st2)
          /\ bsp_CheckTimer TMR_COUNT id st2 = (0, st3)).
Proof.
  intros H Hi Hp.
  destruct (StartTimer_slot id p (tm s) H Hi) as (st1 & Hst & Hs1 & Hw1).
  exists st1. split; [exact Hst|]. split.
  - intros n.
    destruct (rounds_slot n id (with_tm st1 s) _ Hw1 Hs1) as (Hr & _ & _).
    rewrite Hr, <- fmap_S_seq, <- list_fmap_compose.
    apply list_fmap_ext. intros _ k _. cbn beta. unfold compose.
    rewrite slot_run_once by assumption.
    destruct (Z.ltb_spec (Z.of_nat k) p) as [Hk|Hk].
    + destruct (Z.eqb_spec (Z.of_nat (S k)) p) as [E|E].
      * replace (p - Z.of_nat k) with 1 by lia. reflexivity.
      * rewrite slot_poll_running by lia. reflexivity.
    + destruct (Z.eqb_spec (Z.of_nat (S k)) p) as [E|E]; [lia|]. reflexivity.
  - destruct (rounds_slot (Z.to_nat (p - 1)) id (with_tm st1 s) _ Hw1 Hs1)
      as (_ & Hs & Hw).
    rewrite slot_run_once in Hs by assumption.
    rewrite Z2Nat.id in Hs by lia.
    destruct (Z.ltb_spec (p - 1) p); [|lia].
    replace (p - (p - 1)) with 1 in Hs by lia.
    apply (slot_ISR id _ _ Hw) in Hs. rewrite SoftTimerDec_once_expires in Hs.
    destruct (CheckTimer_expired id _ _ _ _ Hi Hs) as (st2 & Hc & Hs2).
    exists st2, st2. split; [exact Hc|].
    eapply CheckTimer_idle; eassumption.
Qed.

(** C2. After [bsp_StartAutoTimer(id, p)] with a valid [id], with a query of
    the slot after each tick: the query after tick [k] answers 1 exactly when
    [k] is a multiple of [p], for as long as the simulation runs.  In the tick
    that sets the flag the count is back at [p], reloaded from [PreLoad]. *)
Theorem start_auto_expires_every_period (id : nat) (p : Z) (s : system World) :
  wf (tm s) -> (id < TMR_COUNT)%nat -> 0 <= p <= UINT32_MAX ->
  exists st1, bsp_StartAutoTimer TMR_COUNT id p (tm s) = Returns st1
    /\ (forall n, length (fst (rounds id n (with_tm st1 s))) = n)
    /\ (forall n k r,
          fst (rounds id n (with_tm st1 s)) !! k = Some r ->
          (r = 1 /\ (p | Z.of_nat (S k))) \/ (r = 0 /\ ~ (p | Z.of_nat (S k))))
    /\ (forall n, exists t,
          s_tTmr (tm (ISR (snd (rounds id n (with_tm st1 s))))) !! id = Some t
          /\ Mode t = TMR_AUTO_MODE /\ PreLoad t = p
          /\ (Flag t = 1 <-> (p | Z.of_nat (S n)))
          /\ (Flag t = 1 -> Count t = PreLoad t)).
Proof.
  intros H Hi Hp.
  destruct (StartAutoTimer_slot id p (tm s) H Hi) as (st1 & Hst & Hs1 & Hw1).
  exists st1. split; [exact Hst|].
  assert (Hz : forall k, p = 0 -> ~ (p | Z.of_nat (S k))).
  { intros k -> Hd. apply Z.divide_0_l in Hd. lia. }
  split; [|split].
  - intros n.
    destruct (rounds_slot n id (with_tm st1 s) _ Hw1 Hs1) as (Hr & _ & _).
    now rewrite Hr, length_fmap, length_seq.
  - intros n k r Hk.
    destruct (rounds_slot n id (with_tm st1 s) _ Hw1 Hs1) as (Hr & _ & _).
    rewrite Hr, list_lookup_fmap in Hk.
    destruct (seq 0 n !! k) as [j|] eqn:Ej; [|discriminate].
    apply lookup_seq in Ej. destruct Ej as [-> _].
    simpl in Hk. injection Hk as <-.
    destruct (Z.eq_dec p 0) as [E0|E0].
    + right. split; [|apply Hz; assumption].
      subst p. rewrite slot_run_inert. reflexivity.
    + rewrite slot_run_auto by lia.
      rewrite Nat2Z.inj_succ, <- Z.add_1_r.
      destruct (auto_count_one (Z.of_nat k) p ltac:(lia)) as [Hb Hd].
      destruct (Z.eq_dec (p - Z.of_nat k mod p) 1) as [E|E].
      * left. rewrite E. split; [reflexivity | apply Hd; assumption].
      * right. rewrite slot_poll_running by lia.
        split; [reflexivity | tauto].
  - intros n.
    destruct (rounds_slot n id (with_tm st1 s) _ Hw1 Hs1) as (_ & Hs & Hw).
    apply (slot_ISR id _ _ Hw) in Hs.
    eexists. split; [exact Hs|].
    destruct (Z.eq_dec p 0) as [E0|E0].
    + subst p. rewrite slot_run_inert. cbn.
      split; [reflexivity|]. split; [reflexivity|]. split; [|discriminate].
      split; [discriminate|]. intros Hd. exfalso. revert Hd. now apply Hz.
    + rewrite slot_run_auto by lia.
      rewrite Nat2Z.inj_succ, <- Z.add_1_r.
      destruct (auto_count_one (Z.of_nat n) p ltac:(lia)) as [Hb Hd].
      destruct (Z.eq_dec (p - Z.of_nat n mod p) 1) as [E|E].
      * rewrite E, SoftTimerDec_auto_expires. cbn.
        split; [reflexivity|]. split; [reflexivity|]. split; [|reflexivity].
        split; [intros _; now apply Hd | reflexivity].
      * rewrite SoftTimerDec_running by lia. cbn.
        split; [reflexivity|]. split; [reflexivity|]. split; [|discriminate].
        split; [discriminate | tauto].
Qed.

#[local] Abbreviation sched := (schedule TMR_COUNT bsp_RunPer1ms bsp_RunPer10ms TPCRemarks).

(** A slot with [Count = 0] and [Flag = 0] is inert: whatever the ticks and
    queries, every query answers 0 and the slot does not change. *)
Lemma inert_schedule id acts (s : system World) m pl :
  wf (tm s) -> s_tTmr (tm s) !! id = Some (mkTmr m 0 0 pl) ->
  Forall (fun r => r = 0) (fst (sched id acts s))
  /\ s_tTmr (tm (snd (sched id acts s))) !! id = Some (mkTmr m 0 0 pl)
  /\ wf (tm (snd (sched id acts s))).
Proof.
  revert s. induction acts as [|a acts IH]; intros s H Hs.
  - simpl. auto.
  - destruct a; simpl.
    + apply IH; [now apply wf_ISR|].
      now apply (slot_ISR id s _ H) in Hs.
    + rewrite (CheckTimer_idle id _ _ _ _ Hs).
      destruct (IH (with_tm (tm s) s) H Hs) as (Ha & Hb & Hc).
      destruct (sched id acts (with_tm (tm s) s)) as [rs s']. simpl in *.
      split; [constructor; [reflexivity | assumption] | auto].
Qed.

Lemma inert_ticks id n (s : system World) m pl :
  wf (tm s) -> s_tTmr (tm s) !! id = Some (mkTmr m 0 0 pl) ->
  s_tTmr (tm (run n s)) !! id = Some (mkTmr m 0 0 pl).
Proof.
  intros H Hs. rewrite (slot_run_ticks n id s _ H Hs). f_equal.
  induction n as [|n IH]; [reflexivity|]. simpl. now rewrite IH.
Qed.

(** C8. [bsp_StopTimer(id)] with a valid [id] leaves the slot with
    [Count = 0], [Flag = 0] and [Mode = TMR_ONCE_MODE].  From then on, and
    as long as no start call is made, a query answers 0 after any number of
    ticks, whether or not other queries were made in between. *)
Theorem stop_disarms (id : nat) (s : system World) :
  wf (tm s) -> (id < TMR_COUNT)%nat ->
  exists st1 t1, bsp_StopTimer TMR_COUNT id (tm s) = Returns st1
    /\ s_tTmr st1 !! id = Some t1
    /\ Count t1 = 0 /\ Flag t1 = 0 /\ Mode t1 = TMR_ONCE_MODE
    /\ (forall n, fst (bsp_CheckTimer TMR_COUNT id (tm (run n (with_tm st1 s)))) = 0)
    /\ (forall acts, Forall (fun r => r = 0) (fst (sched id acts (with_tm st1 s)))).
Proof.
  intros H Hi.
  destruct (StopTimer_slot id (tm s) H Hi) as (st1 & t & Hst & _ & Hs1 & Hw1).
  exists st1. eexists. split; [exact Hst|]. split; [exact Hs1|].
  split; [reflexivity|]. split; [reflexivity|]. split; [reflexivity|]. split.
  - intros n.
    erewrite CheckTimer_idle; [reflexivity|].
    apply inert_ticks; [exact Hw1 | exact Hs1].
  - intros acts.
    destruct (inert_schedule id acts (with_tm st1 s) _ _ Hw1 Hs1) as (Ha & _).
    exact Ha.
Qed.

(** C9. With an identifier out of range ([id >= TMR_COUNT]) the two arm
    operations and the stop operation do not return: they spin, and the state
    in which they spin is the state they were called in, so no slot was
    written.  The query returns 0 and leaves the state as it is. *)
Theorem out_of_range_id (id : nat) (p : Z) (st : bsp_timer) :
  (TMR_COUNT <= id)%nat ->
  bsp_StartTimer TMR_COUNT id p st = Halts st
  /\ bsp_StartAutoTimer TMR_COUNT id p st = Halts st
  /\ bsp_StopTimer TMR_COUNT id st = Halts st
  /\ bsp_CheckTimer TMR_COUNT id st = (0, st).
Proof.
  intros Hi.
  unfold bsp_StartTimer, bsp_StartAutoTimer, bsp_StopTimer, bsp_CheckTimer.
  destruct (decide (TMR_COUNT <= id)%nat); [|contradiction].
  repeat split.
Qed.

(** What an inert slot does, in one statement. *)
Lemma inert_slot_stays id (s : system World) m pl :
  wf (tm s) -> s_tTmr (tm s) !! id = Some (mkTmr m 0 0 pl) ->
  (forall n, exists t,
      s_tTmr (tm (run n s)) !! id = Some t /\ Count t = 0 /\ Flag t = 0)
  /\ (forall n, fst (bsp_CheckTimer TMR_COUNT id (tm (run n s))) = 0)
  /\ (forall acts, Forall (fun r => r = 0) (fst (sched id acts s))).
Proof.
  intros H Hs. split; [|split].
  - intros n. eexists. split; [apply inert_ticks; eassumption|]. auto.
  - intros n. erewrite CheckTimer_idle; [reflexivity|].
    apply inert_ticks; eassumption.
  - intros acts. now destruct (inert_schedule id acts s _ _ H Hs) as (Ha & _).
Qed.


(** ** The run-time clock *)

Lemma g_iRunTime_ISR (s : system World) :
  g_iRunTime (tm (ISR s))
  = if int32 (g_iRunTime (tm s) + 1) =? RUNTIME_WRAP
    then 0 else int32 (g_iRunTime (tm s) + 1).
Proof.
  rewrite tm_ISR. unfold isr_effect, isr_runtime.
  assert (E : g_iRunTime (isr_soft_timers TMR_COUNT (isr_delay (tm s)))
              = g_iRunTime (tm s)).
  { unfold isr_soft_timers, isr_delay; simpl.
    destruct (0 <? _); [|reflexivity]. destruct (_ =? 0); reflexivity. }
  rewrite E. destruct (_ =? RUNTIME_WRAP); reflexivity.
Qed.

(** Below the wrap point the increment never leaves [int32_t], and the tick
    is an increment modulo the wrap point. *)
Lemma clock_tick (s : system World) :
  0 <= g_iRunTime (tm s) < RUNTIME_WRAP ->
  g_iRunTime (tm (ISR s))
  = if g_iRunTime (tm s) =? RUNTIME_WRAP - 1 then 0 else g_iRunTime (tm s) + 1.
Proof.
  intros H. rewrite g_iRunTime_ISR.
  unfold RUNTIME_WRAP in *.
  rewrite int32_small by (unfold INT32_MIN, INT32_MAX; lia).
  destruct (Z.eqb_spec (g_iRunTime (tm s) + 1) 2147483647);
    destruct (Z.eqb_spec (g_iRunTime (tm s)) (2147483647 - 1)); lia.
Qed.

Lemma clock_tick_mod (s : system World) :
  0 <= g_iRunTime (tm s) < RUNTIME_WRAP ->
  g_iRunTime (tm (ISR s)) = (g_iRunTime (tm s) + 1) mod RUNTIME_WRAP.
Proof.
  intros H. rewrite clock_tick by assumption.
  destruct (Z.eqb_spec (g_iRunTime (tm s)) (RUNTIME_WRAP - 1)) as [E|E].
  - rewrite E. replace (RUNTIME_WRAP - 1 + 1) with RUNTIME_WRAP by lia.
    symmetry. apply Z_mod_same_full.
  - symmetry. apply Z.mod_small. lia.
Qed.

Lemma clock_ticksN (n : N) (s : system World) :
  0 <= g_iRunTime (tm s) < RUNTIME_WRAP ->
  g_iRunTime (tm (runN n s)) = (g_iRunTime (tm s) + Z.of_N n) mod RUNTIME_WRAP.
Proof.
  intros H. unfold ticksN. induction n as [|n IH] using N.peano_ind.
  - simpl. rewrite Z.add_0_r. symmetry. apply Z.mod_small. assumption.
  - rewrite N.iter_succ, clock_tick_mod.
    + rewrite IH, Zplus_mod_idemp_l. f_equal. lia.
    + rewrite IH. apply Z.mod_pos_bound. reflexivity.
Qed.

(** C4, as the handler has it.  From start-up the clock reads, after [n]
    ticks, [n] modulo the wrap point [0x7FFFFFFF], which is the largest
    [int32_t] itself: it goes up by one per tick, it reads [0x7FFFFFFE] after
    [0x7FFFFFFE] ticks and 0 after [0x7FFFFFFF] ticks, the increment never
    leaves the storage, and [0x7FFFFFFF] is never a value of the clock. *)
Theorem runtime_clock_wraps_at_sentinel (n : N) (c : Z) (w : World) :
  let clock k :=
    bsp_GetRunTime (tm (runN k (mkSys (SysTickTimer_Init TMR_COUNT) c w))) in
  RUNTIME_WRAP = INT32_MAX
  /\ clock 0%N = 0
  /\ clock n = Z.of_N n mod RUNTIME_WRAP
  /\ 0 <= clock n < RUNTIME_WRAP
  /\ clock (N.succ n) = (if clock n =? RUNTIME_WRAP - 1 then 0 else clock n + 1)
  /\ int32 (clock n + 1) = clock n + 1
  /\ clock (Z.to_N (RUNTIME_WRAP - 1)) = RUNTIME_WRAP - 1
  /\ clock (Z.to_N RUNTIME_WRAP) = 0.
Proof.
  intros clock.
  assert (H0 : forall k, clock k = Z.of_N k mod RUNTIME_WRAP).
  { intros k. unfold clock, bsp_GetRunTime. rewrite clock_ticksN.
    - reflexivity.
    - simpl. unfold RUNTIME_WRAP. lia. }
  assert (Hb : forall k, 0 <= clock k < RUNTIME_WRAP).
  { intros k. rewrite H0. apply Z.mod_pos_bound. reflexivity. }
  split; [reflexivity|]. split; [reflexivity|]. split; [apply H0|].
  split; [apply Hb|]. split; [|split; [|split]].
  - unfold clock, bsp_GetRunTime, ticksN. rewrite N.iter_succ.
    apply clock_tick. apply Hb.
  - specialize (Hb n). apply int32_small.
    unfold RUNTIME_WRAP, INT32_MIN, INT32_MAX in *. lia.
  - rewrite H0. reflexivity.
  - rewrite H0. reflexivity.
Qed.

(** ** The order of the handler's steps *)

(** One tick with any hooks: the three hooks are shown the module's state
    with the three updates of this tick already made. *)
Lemma ISR_hooks (s : system World) :
  let t' := isr_effect TMR_COUNT (tm s) in
  let c := uint8 (s_count s + 1) in
  ISR s =
    if 10 <=? c
    then mkSys t' 0 (TPCRemarks t' (bsp_RunPer10ms t' (bsp_RunPer1ms t' (ext s))))
    else mkSys t' c (TPCRemarks t' (bsp_RunPer1ms t' (ext s))).
Proof. reflexivity. Qed.

Lemma isr_effect_fields t :
  wf t ->
  let t' := isr_effect TMR_COUNT t in
  s_uiDelayCount t' = (if 0 <? s_uiDelayCount t
                       then uint32 (s_uiDelayCount t - 1)
                       else s_uiDelayCount t)
  /\ s_ucTimeOutFlag t' = (if (0 <? s_uiDelayCount t)
                               && (uint32 (s_uiDelayCount t - 1) =? 0)
                          then 1 else s_ucTimeOutFlag t)
  /\ s_tTmr t' = bsp_SoftTimerDec <$> s_tTmr t
  /\ g_iRunTime t' = (if int32 (g_iRunTime t + 1) =? RUNTIME_WRAP
                      then 0 else int32 (g_iRunTime t + 1)).
Proof.
  intros H t'. subst t'. unfold isr_effect.
  assert (Hs : s_tTmr (isr_runtime (isr_soft_timers TMR_COUNT (isr_delay t)))
               = bsp_SoftTimerDec <$> s_tTmr t).
  { rewrite s_tTmr_isr_runtime, s_tTmr_isr_soft_timers.
    - now rewrite s_tTmr_isr_delay.
    - unfold bank_wf. now rewrite s_tTmr_isr_delay. }
  rewrite Hs. clear Hs.
  unfold isr_runtime, isr_soft_timers, isr_delay.
  destruct (0 <? s_uiDelayCount t); simpl.
  - destruct (uint32 (s_uiDelayCount t - 1) =? 0); simpl;
      destruct (int32 (g_iRunTime t + 1) =? RUNTIME_WRAP); simpl; auto.
  - destruct (int32 (g_iRunTime t + 1) =? RUNTIME_WRAP); simpl; auto.
Qed.

End HandlerFacts.

(** With the recording hooks, over any number of ticks. *)
Section RecordedTicks.

Variable TMR_COUNT : nat.

#[local] Abbreviation ISRr := (SysTick_ISR_recorded TMR_COUNT).
#[local] Abbreviation runr := (ticks_recorded TMR_COUNT).

Lemma recorded_tick (s : system (list hook_call)) k :
  s_count s = Z.of_nat k mod 10 ->
  tm (ISRr s) = isr_effect TMR_COUNT (tm s)
  /\ s_count (ISRr s) = Z.of_nat (S k) mod 10
  /\ ext (ISRr s) = ext s ++ calls_of_tick (S k) (isr_effect TMR_COUNT (tm s)).
Proof.
  intros Hc.
  pose proof (Z.mod_pos_bound (Z.of_nat k) 10 ltac:(lia)) as Hb.
  unfold SysTick_ISR_recorded. rewrite ISR_hooks. cbv zeta.
  rewrite Hc, uint8_small by lia.
  unfold calls_of_tick, record_call.
  rewrite Nat2Z.inj_succ, <- Z.add_1_r, mod_succ by lia.
  destruct (Z.leb_spec 10 (Z.of_nat k mod 10 + 1)) as [Hl|Hl];
    destruct (Z.eqb_spec (Z.of_nat k mod 10 + 1) 10) as [E|E]; try lia; simpl.
  - split; [reflexivity|]. split; [reflexivity|].
    now rewrite <- !app_assoc.
  - split; [reflexivity|]. split; [reflexivity|].
    destruct (Z.eqb_spec (Z.of_nat k mod 10 + 1) 0); [lia|].
    now rewrite <- !app_assoc.
Qed.

Lemma recorded_ticks n t0 w0 :
  let s0 := mkSys t0 0 w0 in
  tm (runr n s0) = Nat.iter n (isr_effect TMR_COUNT) t0
  /\ s_count (runr n s0) = Z.of_nat n mod 10
  /\ ext (runr n s0)
     = w0 ++ flat_map (fun k => calls_of_tick k (Nat.iter k (isr_effect TMR_COUNT) t0))
                      (seq 1 n).
Proof.
  intros s0. induction n as [|n (IHt & IHc & IHe)].
  - simpl. split; [reflexivity|]. split; [reflexivity|]. now rewrite app_nil_r.
  - destruct (recorded_tick (runr n s0) n IHc) as (Ht & Hc & He).
    change (runr (S n) s0) with (ISRr (runr n s0)).
    rewrite Ht, Hc, He, IHe, IHt.
    split; [reflexivity|]. split; [reflexivity|].
    rewrite seq_S, flat_map_app. simpl. now rewrite app_nil_r, <- app_assoc.
Qed.

Lemma wf_isr_effect t : bank_wf TMR_COUNT t -> bank_wf TMR_COUNT (isr_effect TMR_COUNT t).
Proof.
  intros H. destruct (isr_effect_fields TMR_COUNT t H) as (_ & _ & Hs & _).
  unfold bank_wf. rewrite Hs, length_fmap. exact H.
Qed.

Lemma wf_iter_isr_effect n t :
  bank_wf TMR_COUNT t -> bank_wf TMR_COUNT (Nat.iter n (isr_effect TMR_COUNT) t).
Proof. intros H. induction n; simpl; [assumption | now apply wf_isr_effect]. Qed.


End RecordedTicks.

(** ** The elapsed-time query *)


(** ** The blocking delay *)

Section DelayFacts.

Variable TMR_COUNT : nat.
Context {World : Type}.
Variables bsp_RunPer1ms bsp_RunPer10ms TPCRemarks : bsp_timer -> World -> World.

#[local] Abbreviation ISR := (SysTick_ISR TMR_COUNT bsp_RunPer1ms bsp_RunPer10ms TPCRemarks).
#[local] Abbreviation run := (ticks TMR_COUNT bsp_RunPer1ms bsp_RunPer10ms TPCRemarks).
#[local] Abbreviation wait := (delay_wait TMR_COUNT bsp_RunPer1ms bsp_RunPer10ms TPCRemarks).
#[local] Abbreviation DelayMS := (bsp_DelayMS TMR_COUNT bsp_RunPer1ms bsp_RunPer10ms TPCRemarks).

Lemma run_succ_r k (s : system World) : run (S k) s = run k (ISR s).
Proof. unfold ticks. apply Nat.iter_succ_r. Qed.

(** The delay's two variables after a tick. *)
Lemma delay_ISR (s : system World) :
  s_uiDelayCount (tm (ISR s)) = s_uiDelayCount (isr_delay (tm s))
  /\ s_ucTimeOutFlag (tm (ISR s)) = s_ucTimeOutFlag (isr_delay (tm s)).
Proof.
  rewrite tm_ISR. unfold isr_effect, isr_runtime, isr_soft_timers.
  destruct (_ =? RUNTIME_WRAP); simpl; auto.
Qed.

(** An armed countdown of [c] ticks: the count after [k <= c] ticks, and the
    flag, which is set by tick [c] and not before. *)
Lemma delay_countdown k c (s : system World) :
  s_uiDelayCount (tm s) = c -> s_ucTimeOutFlag (tm s) = 0 ->
  0 < c <= UINT32_MAX -> Z.of_nat k <= c ->
  s_uiDelayCount (tm (run k s)) = c - Z.of_nat k
  /\ s_ucTimeOutFlag (tm (run k s)) = (if Z.of_nat k =? c then 1 else 0).
Proof.
  intros Hc Hf Hr. induction k as [|k IH]; intros Hk.
  - change (run 0 s) with s. change (Z.of_nat 0) with 0.
    destruct (Z.eqb_spec 0 c); [lia|]. split; [lia | assumption].
  - destruct IH as (IHc & IHf); [lia|].
    destruct (Z.eqb_spec (Z.of_nat k) c) as [E|_]; [lia|].
    change (run (S k) s) with (ISR (run k s)).
    destruct (delay_ISR (run k s)) as (-> & ->).
    unfold isr_delay. rewrite IHc.
    destruct (Z.ltb_spec 0 (c - Z.of_nat k)); [|lia].
    rewrite uint32_small by lia.
    destruct (Z.eqb_spec (c - Z.of_nat k - 1) 0) as [E|E];
      destruct (Z.eqb_spec (Z.of_nat (S k)) c) as [E'|E']; try lia; simpl.
    + split; [lia | reflexivity].
    + split; [lia | assumption].
Qed.

(** The polling loop is left at the first tick count at which the flag is
    1, and not left while the simulated ticks end before that. *)
Lemma delay_wait_first fuel k (s : system World) :
  (forall j, (j < k)%nat -> s_ucTimeOutFlag (tm (run j s)) <> 1) ->
  s_ucTimeOutFlag (tm (run k s)) = 1 ->
  (k <= fuel)%nat ->
  wait fuel s = Some (k, run k s).
Proof.
  revert k s. induction fuel as [|fuel IH]; intros k s Hlt Hk Hf.
  - assert (k = O) by lia. subst k. simpl in *. now rewrite Hk.
  - destruct k as [|k].
    + simpl in *. now rewrite Hk.
    + simpl delay_wait.
      destruct (Z.eqb_spec (s_ucTimeOutFlag (tm s)) 1) as [E|_].
      { exfalso. apply (Hlt O); [lia | exact E]. }
      rewrite (IH k (ISR s)).
      * now rewrite <- run_succ_r.
      * intros j Hj. rewrite <- run_succ_r. apply Hlt. lia.
      * now rewrite <- run_succ_r.
      * lia.
Qed.

Lemma delay_wait_starved fuel (s : system World) :
  (forall j, (j <= fuel)%nat -> s_ucTimeOutFlag (tm (run j s)) <> 1) ->
  wait fuel s = None.
Proof.
  revert s. induction fuel as [|fuel IH]; intros s H.
  - simpl. destruct (Z.eqb_spec (s_ucTimeOutFlag (tm s)) 1) as [E|_]; [|reflexivity].
    exfalso. apply (H O); [lia | exact E].
  - simpl. destruct (Z.eqb_spec (s_ucTimeOutFlag (tm s)) 1) as [E|_].
    { exfalso. apply (H O); [lia | exact E]. }
    rewrite IH; [reflexivity|].
    intros j Hj. rewrite <- run_succ_r. apply H. lia.
Qed.

(** C6. [bsp_DelayMS(0)] returns at once, with no tick gone by and the
    state untouched.  [bsp_DelayMS(1)] is [bsp_DelayMS(2)].  For [n >= 2] the
    countdown is armed with [n] and the flag with 0; the flag is still 0
    after each of the first [n - 1] ticks; the call returns after exactly [n]
    ticks, in the state in which the handler has brought the countdown to 0
    and set the flag, and it has not returned when fewer ticks have gone
    by. *)
Theorem delay_ms_returns_after_n_ticks (n : Z) (fuel : nat) (s : system World) :
  2 <= n <= UINT32_MAX ->
  let armed := with_tm (delay_arm n (tm s)) s in
  DelayMS 0 fuel s = Some (O, s)
  /\ DelayMS 1 fuel s = DelayMS 2 fuel s
  /\ s_uiDelayCount (tm armed) = n /\ s_ucTimeOutFlag (tm armed) = 0
  /\ (forall k, (Z.of_nat k < n) ->
        s_uiDelayCount (tm (run k armed)) = n - Z.of_nat k
        /\ s_ucTimeOutFlag (tm (run k armed)) = 0)
  /\ ((Z.to_nat n <= fuel)%nat ->
        DelayMS n fuel s = Some (Z.to_nat n, run (Z.to_nat n) armed)
        /\ s_uiDelayCount (tm (run (Z.to_nat n) armed)) = 0
        /\ s_ucTimeOutFlag (tm (run (Z.to_nat n) armed)) = 1)
  /\ ((fuel < Z.to_nat n)%nat -> DelayMS n fuel s = None).
Proof.
  intros Hn armed.
  assert (Hcd : forall k, Z.of_nat k <= n ->
            s_uiDelayCount (tm (run k armed)) = n - Z.of_nat k
            /\ s_ucTimeOutFlag (tm (run k armed))
               = (if Z.of_nat k =? n then 1 else 0)).
  { intros k Hk. apply delay_countdown; try reflexivity; lia. }
  assert (Hbefore : forall k, Z.of_nat k < n ->
            s_uiDelayCount (tm (run k armed)) = n - Z.of_nat k
            /\ s_ucTimeOutFlag (tm (run k armed)) = 0).
  { intros k Hk. destruct (Hcd k ltac:(lia)) as (Hc & Hf).
    destruct (Z.eqb_spec (Z.of_nat k) n); [lia|]. auto. }
  assert (Hat : s_uiDelayCount (tm (run (Z.to_nat n) armed)) = 0
                /\ s_ucTimeOutFlag (tm (run (Z.to_nat n) armed)) = 1).
  { destruct (Hcd (Z.to_nat n) ltac:(lia)) as (Hc & Hf).
    rewrite Z2Nat.id in * by lia. rewrite Z.eqb_refl in Hf. split; [lia | exact Hf]. }
  assert (Hdef : DelayMS n fuel s = wait fuel armed).
  { unfold bsp_DelayMS.
    destruct (Z.eqb_spec n 0); [lia|]. destruct (Z.eqb_spec n 1); [lia|].
    reflexivity. }
  split; [reflexivity|]. split; [reflexivity|].
  split; [reflexivity|]. split; [reflexivity|].
  split; [exact Hbefore|]. split.
  - intros Hfuel. split; [|exact Hat].
    rewrite Hdef. apply delay_wait_first.
    + intros j Hj. destruct (Hbefore j ltac:(lia)) as (_ & ->). discriminate.
    + apply Hat.
    + exact Hfuel.
  - intros Hfuel. rewrite Hdef. apply delay_wait_starved.
    intros j Hj. destruct (Hbefore j ltac:(lia)) as (_ & ->). discriminate.
Qed.

End DelayFacts.

(** ** The microsecond delay *)

(** The 32-bit accumulation is the sum of the decreases, modulo [2^32]. *)
Lemma us_accumulate_decrease reload told tnow tcnt :
  tnow <> told ->
  us_accumulate reload told tnow tcnt
  = uint32 (tcnt + decrease reload told tnow).
Proof.
  intros Hne. unfold us_accumulate, decrease, uint32.
  destruct (Z.eqb_spec tnow told); [contradiction|].
  destruct (tnow <? told).
  - now rewrite Zplus_mod_idemp_r.
  - rewrite Zplus_mod_idemp_l. now rewrite Zplus_mod_idemp_r.
Qed.

Lemma decrease_nonneg reload told tnow :
  0 <= told -> 0 <= tnow <= reload -> 0 <= decrease reload told tnow.
Proof.
  intros Ho Hn. unfold decrease.
  destruct (Z.eqb_spec tnow told); [lia|].
  destruct (Z.ltb_spec tnow told); lia.
Qed.

Lemma elapsed_nonneg reload reads :
  Forall (fun v => 0 <= v <= reload) reads ->
  forall told, 0 <= told -> 0 <= elapsed reload told reads.
Proof.
  induction 1 as [|tnow rest Hn _ IH]; intros told Ho; simpl; [lia|].
  pose proof (decrease_nonneg reload told tnow Ho Hn).
  specialize (IH tnow ltac:(lia)). lia.
Qed.

Lemma elapsed_pos_change reload reads :
  forall told, 0 < elapsed reload told reads ->
  Exists (fun v => v <> told) reads.
Proof.
  induction reads as [|tnow rest IH]; intros told H; simpl in H; [lia|].
  destruct (Z.eq_dec tnow told) as [E|E].
  - apply Exists_cons_tl. subst tnow.
    unfold decrease in H. rewrite Z.eqb_refl in H. apply IH. lia.
  - now apply Exists_cons_hd.
Qed.

(** What the loop returns, when it returns. *)
Lemma us_loop_sound reload ticks reads :
  forall told tcnt k c,
  us_loop reload ticks told tcnt reads = Some (k, c) ->
  (1 <= k <= length reads)%nat
  /\ c = uint32 (tcnt + elapsed reload told (take k reads))
  /\ ticks <= c
  /\ (forall j, (j < k)%nat ->
        us_loop reload ticks told tcnt (take j reads) = None).
Proof.
  induction reads as [|tnow rest IH]; intros told tcnt k c H; simpl in H.
  - discriminate.
  - destruct (Z.eqb_spec tnow told) as [E|E].
    + destruct (us_loop reload ticks told tcnt rest) as [[k' c']|] eqn:El;
        [|discriminate].
      simpl in H. injection H as <- <-.
      destruct (IH _ _ _ _ El) as (Hk & Hc & Ht & Hn).
      split; [simpl; lia|]. split; [|split; [exact Ht|]].
      * simpl. unfold decrease. rewrite (proj2 (Z.eqb_eq tnow told) E).
        subst tnow. exact Hc.
      * intros [|j] Hj; [reflexivity|]. simpl.
        rewrite (proj2 (Z.eqb_eq tnow told) E), Hn by lia. reflexivity.
    + rewrite us_accumulate_decrease in H by assumption.
      destruct (Z.leb_spec ticks (uint32 (tcnt + decrease reload told tnow)))
        as [Hle|Hgt].
      * injection H as <- <-.
        split; [simpl; lia|]. split; [|split; [exact Hle|]].
        -- simpl. destruct rest; simpl; now rewrite Z.add_0_r.
        -- intros j Hj. assert (j = O) by lia. subst j. reflexivity.
      * destruct (us_loop reload ticks tnow _ rest) as [[k' c']|] eqn:El;
          [|discriminate].
        simpl in H. injection H as <- <-.
        destruct (IH _ _ _ _ El) as (Hk & Hc & Ht & Hn).
        split; [simpl; lia|]. split; [|split; [exact Ht|]].
        -- simpl. rewrite Hc. unfold uint32.
           rewrite Zplus_mod_idemp_l. f_equal. lia.
        -- intros [|j] Hj; [reflexivity|]. simpl.
           destruct (Z.eqb_spec tnow told); [contradiction|].
           rewrite us_accumulate_decrease by assumption.
           destruct (Z.leb_spec ticks (uint32 (tcnt + decrease reload told tnow)));
             [lia|].
           rewrite Hn by lia. reflexivity.
Qed.

(** The loop does return, given readings that change and whose decreases
    add up to the target without leaving 32 bits. *)
Lemma us_loop_returns reload ticks reads :
  Forall (fun v => 0 <= v <= reload) reads ->
  forall told tcnt,
  0 <= told -> 0 <= tcnt ->
  Exists (fun v => v <> told) reads ->
  ticks <= tcnt + elapsed reload told reads <= UINT32_MAX ->
  exists k c, us_loop reload ticks told tcnt reads = Some (k, c).
Proof.
  induction 1 as [|tnow rest Hn Hrest IH]; intros told tcnt Ho Hc Hex Hsum.
  - inversion Hex.
  - simpl in *.
    pose proof (decrease_nonneg reload told tnow Ho Hn) as Hd.
    pose proof (elapsed_nonneg reload rest Hrest tnow ltac:(lia)) as He.
    destruct (Z.eqb_spec tnow told) as [E|E].
    + assert (Hex' : Exists (fun v => v <> told) rest).
      { inversion Hex; subst; [contradiction | assumption]. }
      unfold decrease in Hsum. rewrite (proj2 (Z.eqb_eq tnow told) E) in Hsum.
      subst tnow.
      destruct (IH told tcnt Ho Hc Hex' ltac:(lia)) as (k & c & ->).
      simpl. eauto.
    + rewrite us_accumulate_decrease by assumption.
      rewrite uint32_small by lia.
      destruct (Z.leb_spec ticks (tcnt + decrease reload told tnow)) as [Hle|Hgt].
      * eauto.
      * destruct (IH tnow (tcnt + decrease reload told tnow)) as (k & c & ->);
          [lia | lia | | lia | simpl; eauto].
        apply (elapsed_pos_change reload). lia.
Qed.


(** * The properties on concrete runs *)

Lemma start_once_reports_one_expiry_witness :
  bank_wf 4 (tm boot4) /\ (2 < 4)%nat /\ 0 < 3 <= UINT32_MAX
  /\ exists st1, bsp_StartTimer 4 2 3 (tm boot4) = Returns st1
       /\ fst (poll_trace 4 no_hook no_hook no_hook 2 6 (with_tm st1 boot4))
          = [0; 0; 1; 0; 0; 0].
Proof.
  assert (Hw : bank_wf 4 (tm boot4)) by reflexivity.
  assert (Hi : (2 < 4)%nat) by lia.
  assert (Hp : 0 < 3 <= UINT32_MAX) by (unfold UINT32_MAX; lia).
  split; [exact Hw|]. split; [exact Hi|]. split; [exact Hp|].
  destruct (start_once_reports_one_expiry 4 no_hook no_hook no_hook
              2 3 boot4 Hw Hi Hp) as (st1 & Hst & Htr & _).
  exists st1. split; [exact Hst | exact (Htr 6%nat)].
Defined.

Lemma start_auto_expires_every_period_witness :
  bank_wf 4 (tm boot4) /\ (1 < 4)%nat /\ 0 <= 3 <= UINT32_MAX
  /\ exists st1, bsp_StartAutoTimer 4 1 3 (tm boot4) = Returns st1
       /\ length (fst (poll_trace 4 no_hook no_hook no_hook 1 7
                         (with_tm st1 boot4))) = 7%nat
       /\ exists t,
            s_tTmr (tm (SysTick_ISR 4 no_hook no_hook no_hook
                          (snd (poll_trace 4 no_hook no_hook no_hook 1 5
                                  (with_tm st1 boot4))))) !! 1%nat = Some t
            /\ Mode t = TMR_AUTO_MODE /\ PreLoad t = 3
            /\ (Flag t = 1 <-> (3 | Z.of_nat 6))
            /\ (Flag t = 1 -> Count t = PreLoad t).
Proof.
  assert (Hw : bank_wf 4 (tm boot4)) by reflexivity.
  assert (Hi : (1 < 4)%nat) by lia.
  assert (Hp : 0 <= 3 <= UINT32_MAX) by (unfold UINT32_MAX; lia).
  split; [exact Hw|]. split; [exact Hi|]. split; [exact Hp|].
  destruct (start_auto_expires_every_period 4 no_hook no_hook no_hook
              1 3 boot4 Hw Hi Hp) as (st1 & Hst & Hlen & _ & Hre).
  exists st1. split; [exact Hst|]. split; [exact (Hlen 7%nat)|].
  exact (Hre 5%nat).
Defined.



Lemma delay_ms_returns_after_n_ticks_witness :
  2 <= 3 <= UINT32_MAX
  /\ bsp_DelayMS 4 no_hook no_hook no_hook 3 5 boot4
     = Some (3%nat, ticks 4 no_hook no_hook no_hook 3
                      (with_tm (delay_arm 3 (tm boot4)) boot4))
  /\ bsp_DelayMS 4 no_hook no_hook no_hook 3 2 boot4 = None.
Proof.
  assert (Hn : 2 <= 3 <= UINT32_MAX) by (unfold UINT32_MAX; lia).
  split; [exact Hn|].
  split.
  - destruct (delay_ms_returns_after_n_ticks 4 no_hook no_hook no_hook
                3 5 boot4 Hn) as (_ & _ & _ & _ & _ & Hret & _).
    destruct (Hret ltac:(simpl; lia)) as (H & _). exact H.
  - destruct (delay_ms_returns_after_n_ticks 4 no_hook no_hook no_hook
                3 2 boot4 Hn) as (_ & _ & _ & _ & _ & _ & Hno).
    apply Hno. simpl. lia.
Defined.


Lemma stop_disarms_witness :
  bank_wf 4 (tm busy4) /\ (3 < 4)%nat
  /\ s_tTmr (tm busy4) !! 3%nat = Some (mkTmr TMR_AUTO_MODE 1 2 2)
  /\ fst (bsp_CheckTimer 4 3 (tm busy4)) = 1
  /\ exists st1 t1, bsp_StopTimer 4 3 (tm busy4) = Returns st1
       /\ s_tTmr st1 !! 3%nat = Some t1
       /\ Count t1 = 0 /\ Flag t1 = 0 /\ Mode t1 = TMR_ONCE_MODE
       /\ fst (bsp_CheckTimer 4 3 (tm (with_tm st1 busy4))) = 0
       /\ fst (bsp_CheckTimer 4 3
                 (tm (ticks 4 no_hook no_hook no_hook 9 (with_tm st1 busy4)))) = 0
       /\ Forall (fun r => r = 0)
            (fst (schedule 4 no_hook no_hook no_hook 3
                    [Query; Tick; Tick; Query; Tick; Query] (with_tm st1 busy4))).
Proof.
  assert (Hw : bank_wf 4 (tm busy4)) by reflexivity.
  assert (Hi : (3 < 4)%nat) by lia.
  split; [exact Hw|]. split; [exact Hi|].
  split; [reflexivity|]. split; [reflexivity|].
  destruct (stop_disarms 4 no_hook no_hook no_hook 3 busy4 Hw Hi)
    as (st1 & t1 & Hst & Hs & Hc & Hf & Hm & Hq & Hsch).
  exists st1, t1. repeat (split; [assumption|]).
  split; [exact (Hq 0%nat)|]. split; [exact (Hq 9%nat)|]. apply Hsch.
Defined.

Lemma out_of_range_id_witness :
  (4 <= 7)%nat
  /\ bsp_StartTimer 4 7 50 (SysTickTimer_Init 4) = Halts (SysTickTimer_Init 4)
  /\ bsp_StartAutoTimer 4 7 50 (SysTickTimer_Init 4) = Halts (SysTickTimer_Init 4)
  /\ bsp_StopTimer 4 7 (SysTickTimer_Init 4) = Halts (SysTickTimer_Init 4)
  /\ bsp_CheckTimer 4 7 (SysTickTimer_Init 4) = (0, SysTickTimer_Init 4).
Proof.
  assert (Hi : (4 <= 7)%nat) by lia.
  split; [exact Hi|].
  exact (out_of_range_id 4 7 50 (SysTickTimer_Init 4) Hi).
Defined.


(** The clock after [0x7FFFFFFF] ticks from start-up reads 0, not
    [0x7FFFFFFE]. *)
Lemma clock_after_wrap_ticks_reads_zero :
  bsp_GetRunTime (tm (ticksN 4 no_hook no_hook no_hook 2147483647 boot4)) = 0
  /\ bsp_GetRunTime (tm (ticksN 4 no_hook no_hook no_hook 2147483647 boot4))
     <> 2147483647 - 1.
Proof.
  assert (H : bsp_GetRunTime (tm (ticksN 4 no_hook no_hook no_hook 2147483647 boot4)) = 0).
  { unfold bsp_GetRunTime. rewrite clock_ticksN.
    - reflexivity.
    - simpl. unfold RUNTIME_WRAP. lia. }
  split; [exact H|]. rewrite H. discriminate.
Qed.

(** C7. The function on a request that it does not serve: at 168 MHz a
    request of 25565282 microseconds is worth 4294967376 ticks, the 32-bit
    product of [ticks = n * (SystemCoreClock / 1000000)] is 80, and the call
    returns on the first change of the counter, after a decrease of 90
    ticks. *)
Lemma delay_us_returns_early_on_overflow :
  us_to_ticks 168000000 25565282 = 80
  /\ 25565282 * (168000000 / 1000000) = 4294967376
  /\ bsp_DelayUS 168000000 167999 25565282 [100; 10] = Some (1%nat, 90)
  /\ elapsed 167999 100 [10] = 90
  /\ 90 < 25565282 * (168000000 / 1000000).
Proof. repeat split. Qed.

(** * Further properties of the module *)

(** ** The ranges of the variables are kept *)

Lemma slot_ok_SoftTimerDec t : slot_ok t -> slot_ok (bsp_SoftTimerDec t).
Proof.
  destruct t as [m f c pl]. unfold slot_ok, bsp_SoftTimerDec; simpl.
  intros (Hf & Hc & Hp).
  destruct (Z.ltb_spec 0 c); [|auto].
  rewrite uint32_small by lia.
  destruct (Z.eqb_spec (c - 1) 0).
  - destruct m; simpl; repeat split; auto; lia.
  - simpl. repeat split; auto; lia.
Qed.

Lemma init_loop_slots TMR_COUNT st :
  bank_wf TMR_COUNT st ->
  s_tTmr (SysTickTimer_Init_loop TMR_COUNT st)
  = replicate TMR_COUNT (mkTmr TMR_ONCE_MODE 0 0 0).
Proof.
  unfold bank_wf, SysTickTimer_Init_loop. intros H; simpl. rewrite <- H.
  rewrite (foldl_alter_seq _ (s_tTmr st) []). simpl. clear H.
  induction (s_tTmr st) as [|x l IH]; [reflexivity|].
  rewrite fmap_cons, IH. reflexivity.
Qed.

Section ReachableStates.

Variable TMR_COUNT : nat.
Context {World : Type}.
Variables bsp_RunPer1ms bsp_RunPer10ms TPCRemarks : bsp_timer -> World -> World.

#[local] Abbreviation ISR := (SysTick_ISR TMR_COUNT bsp_RunPer1ms bsp_RunPer10ms TPCRemarks).
#[local] Abbreviation run := (ticks TMR_COUNT bsp_RunPer1ms bsp_RunPer10ms TPCRemarks).
#[local] Abbreviation runN := (ticksN TMR_COUNT bsp_RunPer1ms bsp_RunPer10ms TPCRemarks).
#[local] Abbreviation wait := (delay_wait TMR_COUNT bsp_RunPer1ms bsp_RunPer10ms TPCRemarks).
#[local] Abbreviation DelayMS := (bsp_DelayMS TMR_COUNT bsp_RunPer1ms bsp_RunPer10ms TPCRemarks).
#[local] Abbreviation sched := (schedule TMR_COUNT bsp_RunPer1ms bsp_RunPer10ms TPCRemarks).
#[local] Abbreviation reach := (reachable TMR_COUNT bsp_RunPer1ms bsp_RunPer10ms TPCRemarks).
#[local] Abbreviation ok := (state_ok TMR_COUNT).
#[local] Abbreviation wf := (bank_wf TMR_COUNT).
#[local] Abbreviation sys_ok := (sys_ok TMR_COUNT).

Lemma ok_isr_effect t : ok t -> ok (isr_effect TMR_COUNT t).
Proof.
  intros (Hw & Hs & Hd & Hf & Hr).
  destruct (isr_effect_fields TMR_COUNT t Hw) as (Ed & Ef & Es & Er).
  unfold state_ok, bank_wf. rewrite Ed, Ef, Es, Er.
  split; [now rewrite length_fmap|]. split; [|split; [|split]].
  - apply Forall_fmap. eapply Forall_impl; [exact Hs|].
    intros x Hx. now apply slot_ok_SoftTimerDec.
  - destruct (Z.ltb_spec 0 (s_uiDelayCount t)); [|lia].
    rewrite uint32_small by lia. lia.
  - destruct (0 <? s_uiDelayCount t); simpl; [|assumption].
    destruct (_ =? 0); auto.
  - unfold RUNTIME_WRAP in *.
    rewrite int32_small by (unfold INT32_MIN, INT32_MAX; lia).
    destruct (Z.eqb_spec (g_iRunTime t + 1) 2147483647); lia.
Qed.

Lemma sys_ok_ISR s : sys_ok s -> sys_ok (ISR s).
Proof.
  intros (Hok & Hc). unfold sys_ok. rewrite tm_ISR.
  split; [now apply ok_isr_effect|].
  rewrite ISR_hooks. cbv zeta. rewrite uint8_small by lia.
  destruct (Z.leb_spec 10 (s_count s + 1)); simpl; lia.
Qed.

Lemma sys_ok_run n s : sys_ok s -> sys_ok (run n s).
Proof. intros H. induction n; simpl; [assumption | now apply sys_ok_ISR]. Qed.

Lemma ok_alter (f : SOFT_TMR -> SOFT_TMR) i st :
  ok st -> (forall t, slot_ok t -> slot_ok (f t)) ->
  ok (set_tTmr (alter f i (s_tTmr st)) st).
Proof.
  intros (Hw & Hs & Hrest) Hf. unfold state_ok, bank_wf; simpl.
  split; [now rewrite length_alter|]. split; [|exact Hrest].
  apply Forall_alter; [assumption|]. intros x _. apply Hf.
Qed.

Lemma wait_is_ticks fuel s k s' : wait fuel s = Some (k, s') -> s' = run k s.
Proof.
  revert s k s'. induction fuel as [|fuel IH]; intros s k s'; simpl.
  - destruct (_ =? 1); [|discriminate]. now intros [= <- <-].
  - destruct (_ =? 1); [now intros [= <- <-]|].
    destruct (wait fuel (ISR s)) as [[k1 s1]|] eqn:E; [|discriminate].
    intros [= <- <-]. apply IH in E. subst s1.
    symmetry. apply run_succ_r.
Qed.

(** X1. Whatever the firmware has done since start-up (ticks, arm, stop,
    query, re-initialisation, blocking delays, with arguments of the declared
    types), the bank has [TMR_COUNT] slots, every flag is 0 or 1, every count
    and reload value and the delay countdown are within [uint32_t], the
    clock is at least 0 and below [0x7FFFFFFF], and the handler's sub-counter
    is below 10. *)
Theorem reachable_state_in_range (s : system World) :
  reach s ->
  bank_wf TMR_COUNT (tm s)
  /\ Forall slot_ok (s_tTmr (tm s))
  /\ 0 <= s_uiDelayCount (tm s) <= UINT32_MAX
  /\ (s_ucTimeOutFlag (tm s) = 0 \/ s_ucTimeOutFlag (tm s) = 1)
  /\ 0 <= bsp_GetRunTime (tm s) < RUNTIME_WRAP
  /\ 0 <= s_count s < 10.
Proof.
  intros H.
  enough (Hs : sys_ok s).
  { destruct Hs as ((H1 & H2 & H3 & H4 & H5) & H6). auto 10. }
  induction H as [w | s _ IH | s _ IH | s id p st _ IH Hp Hst
                 | s id p st _ IH Hp Hst | s id st _ IH Hst
                 | s id _ IH | s n fuel k s' _ IH Hn Hd].
  - split; [|simpl; lia].
    unfold state_ok, bank_wf; simpl.
    split; [apply length_replicate|]. split.
    + apply Forall_replicate. unfold slot_ok, UINT32_MAX; simpl. lia.
    + unfold UINT32_MAX, RUNTIME_WRAP. lia.
  - now apply sys_ok_ISR.
  - destruct IH as ((Hw & Hs & Hrest) & Hc). split; [|exact Hc].
    unfold state_ok, bank_wf; simpl.
    pose proof (init_loop_slots TMR_COUNT (tm s) Hw) as E.
    unfold SysTickTimer_Init_loop in E; simpl in E. rewrite E.
    split; [apply length_replicate|]. split; [|exact Hrest].
    apply Forall_replicate. unfold slot_ok, UINT32_MAX; simpl. lia.
  - destruct IH as (Hok & Hc). split; [|exact Hc]. simpl.
    unfold bsp_StartTimer in Hst. destruct (decide _); [discriminate|].
    injection Hst as <-. apply ok_alter; [assumption|].
    intros t _. unfold slot_ok, is_uint32 in *; simpl. lia.
  - destruct IH as (Hok & Hc). split; [|exact Hc]. simpl.
    unfold bsp_StartAutoTimer in Hst. destruct (decide _); [discriminate|].
    injection Hst as <-. apply ok_alter; [assumption|].
    intros t _. unfold slot_ok, is_uint32 in *; simpl. lia.
  - destruct IH as (Hok & Hc). split; [|exact Hc]. simpl.
    unfold bsp_StopTimer in Hst. destruct (decide _); [discriminate|].
    injection Hst as <-. apply ok_alter; [assumption|].
    intros t (Hf & Hcn & Hpl). unfold slot_ok, UINT32_MAX in *; simpl. lia.
  - destruct IH as (Hok & Hc). split; [|exact Hc]. simpl.
    unfold bsp_CheckTimer. destruct (decide _); [assumption|].
    destruct (s_tTmr (tm s) !! id); [|assumption].
    destruct (Flag s0 =? 1); [|assumption]. simpl.
    apply ok_alter; [assumption|].
    intros t (Hf & Hcn & Hpl). unfold slot_ok; simpl. auto.
  - unfold bsp_DelayMS in Hd.
    destruct (Z.eqb_spec n 0); [now injection Hd as <- <-|].
    apply wait_is_ticks in Hd. subst s'. apply sys_ok_run.
    destruct IH as ((Hw & Hs & Hdc & Hf & Hr) & Hc). split; [|exact Hc].
    unfold state_ok, bank_wf, delay_arm; simpl.
    split; [exact Hw|]. split; [exact Hs|]. split; [|auto].
    unfold is_uint32, UINT32_MAX in *. destruct (n =? 1); lia.
Qed.

End ReachableStates.

(** ** One slot under any interleaving of ticks and queries *)

Lemma SoftTimerDec_keeps_flag t : Flag t = 1 -> Flag (bsp_SoftTimerDec t) = 1.
Proof.
  destruct t as [m f c pl]. unfold bsp_SoftTimerDec; simpl. intros ->.
  destruct (0 <? c); [|reflexivity].
  destruct (uint32 (c - 1) =? 0); [|reflexivity].
  destruct m; reflexivity.
Qed.

(** A disarmed slot reports nothing and stays disarmed. *)
Lemma slot_schedule_inert acts m pl :
  expiries (fst (slot_schedule acts (mkTmr m 0 0 pl))) = 0
  /\ snd (slot_schedule acts (mkTmr m 0 0 pl)) = mkTmr m 0 0 pl.
Proof.
  induction acts as [|[|] acts IH]; simpl; [auto | exact IH |].
  destruct (slot_schedule acts (mkTmr m 0 0 pl)) as [rs t2].
  simpl in *. destruct IH as [-> ->]. auto.
Qed.

(** The tick on a one-shot slot, case by case. *)
Lemma SoftTimerDec_once f c pl :
  0 <= c <= UINT32_MAX ->
  bsp_SoftTimerDec (mkTmr TMR_ONCE_MODE f c pl)
  = mkTmr TMR_ONCE_MODE (if c =? 1 then 1 else f) (if c =? 0 then 0 else c - 1) pl.
Proof.
  intros Hc. unfold bsp_SoftTimerDec; simpl.
  destruct (Z.ltb_spec 0 c).
  - rewrite uint32_small by lia.
    destruct (Z.eqb_spec (c - 1) 0); destruct (Z.eqb_spec c 1); try lia;
      destruct (Z.eqb_spec c 0); try lia; simpl; f_equal; lia.
  - assert (c = 0) by lia. subst c. reflexivity.
Qed.

Lemma SoftTimerDec_auto f c pl :
  0 <= c <= UINT32_MAX ->
  bsp_SoftTimerDec (mkTmr TMR_AUTO_MODE f c pl)
  = mkTmr TMR_AUTO_MODE (if c =? 1 then 1 else f)
      (if c =? 0 then 0 else if c =? 1 then pl else c - 1) pl.
Proof.
  intros Hc. unfold bsp_SoftTimerDec; simpl.
  destruct (Z.ltb_spec 0 c).
  - rewrite uint32_small by lia.
    destruct (Z.eqb_spec (c - 1) 0); destruct (Z.eqb_spec c 1); try lia;
      destruct (Z.eqb_spec c 0); try lia; simpl; f_equal; lia.
  - assert (c = 0) by lia. subst c. reflexivity.
Qed.

Lemma tick_count_nonneg acts : 0 <= tick_count acts.
Proof. induction acts as [|[|] acts IH]; simpl; lia. Qed.

(** A one-shot slot reports at most the one expiry it has pending. *)
Lemma once_at_most_one acts :
  forall f c pl,
  (f = 0 /\ 0 <= c <= UINT32_MAX) \/ (f = 1 /\ c = 0) ->
  0 <= expiries (fst (slot_schedule acts (mkTmr TMR_ONCE_MODE f c pl)))
    <= (if (c =? 0) && (f =? 0) then 0 else 1).
Proof.
  induction acts as [|[|] acts IH]; intros f c pl Hst.
  - simpl. destruct ((c =? 0) && (f =? 0)); lia.
  - simpl slot_schedule. rewrite SoftTimerDec_once by (unfold UINT32_MAX in *; lia).
    destruct Hst as [(-> & Hc) | (-> & ->)].
    + destruct (Z.eqb_spec c 1) as [->|Hc1].
      * specialize (IH 1 0 pl ltac:(right; lia)). exact IH.
      * destruct (Z.eqb_spec c 0) as [->|Hc0].
        -- specialize (IH 0 0 pl ltac:(left; unfold UINT32_MAX; lia)).
           simpl in *. lia.
        -- specialize (IH 0 (c - 1) pl ltac:(left; lia)).
           destruct (Z.eqb_spec (c - 1) 0); simpl in *; lia.
    + specialize (IH 1 0 pl ltac:(right; lia)). simpl in *. lia.
  - simpl slot_schedule. unfold slot_query; simpl.
    destruct Hst as [(-> & Hc) | (-> & ->)]; simpl.
    + specialize (IH 0 c pl ltac:(left; lia)).
      destruct (slot_schedule acts _) as [rs t2]. simpl in *.
      rewrite andb_true_r in *. lia.
    + destruct (slot_schedule_inert acts TMR_ONCE_MODE pl) as [He _].
      unfold set_Flag; simpl.
      destruct (slot_schedule acts _) as [rs t2]. simpl in *. lia.
Qed.

(** Once the period has gone by, the expiry has been reported by a query or
    is still latched in the flag: it is not lost and not doubled. *)
Lemma once_conserved acts :
  forall f c pl,
  (f = 0 /\ 0 < c <= UINT32_MAX) \/ (f = 1 /\ c = 0) ->
  c <= tick_count acts ->
  expiries (fst (slot_schedule acts (mkTmr TMR_ONCE_MODE f c pl)))
  + Flag (snd (slot_schedule acts (mkTmr TMR_ONCE_MODE f c pl))) = 1
  /\ Count (snd (slot_schedule acts (mkTmr TMR_ONCE_MODE f c pl))) = 0.
Proof.
  induction acts as [|[|] acts IH]; intros f c pl Hst Htc.
  - simpl in *. destruct Hst as [(-> & Hc) | (-> & ->)]; [lia | auto].
  - simpl slot_schedule. simpl tick_count in Htc.
    rewrite SoftTimerDec_once by (unfold UINT32_MAX in *; lia).
    destruct Hst as [(-> & Hc) | (-> & ->)].
    + destruct (Z.eqb_spec c 1) as [->|Hc1].
      * apply IH; [right; auto | simpl; lia].
      * destruct (Z.eqb_spec c 0); [lia|].
        apply IH; [left; lia | lia].
    + simpl. apply IH; [right; auto | apply tick_count_nonneg].
  - simpl slot_schedule. simpl tick_count in Htc. unfold slot_query; simpl.
    destruct Hst as [(-> & Hc) | (-> & ->)]; simpl.
    + specialize (IH 0 c pl ltac:(left; lia) Htc).
      destruct (slot_schedule acts _) as [rs t2]. simpl in *. lia.
    + destruct (slot_schedule_inert acts TMR_ONCE_MODE pl) as [He Hs].
      unfold set_Flag; simpl.
      destruct (slot_schedule acts _) as [rs t2]. simpl in *.
      subst t2. simpl. lia.
Qed.

(** An auto-reload slot reports no more expiries than periods gone by. *)
Lemma auto_at_most_periods acts p :
  0 < p <= UINT32_MAX ->
  forall f c,
  (f = 0 \/ f = 1) -> 1 <= c <= p ->
  0 <= expiries (fst (slot_schedule acts (mkTmr TMR_AUTO_MODE f c p)))
    <= f + (tick_count acts + (p - c)) / p.
Proof.
  intros Hp. pose proof tick_count_nonneg as Htc.
  induction acts as [|[|] acts IH]; intros f c Hf Hc.
  - simpl. assert (0 <= (0 + (p - c)) / p) by (apply Z.div_pos; lia). lia.
  - simpl slot_schedule. simpl tick_count.
    rewrite SoftTimerDec_auto by lia.
    destruct (Z.eqb_spec c 0); [lia|].
    destruct (Z.eqb_spec c 1) as [->|Hc1].
    + specialize (IH 1 p ltac:(auto) ltac:(lia)).
      replace (1 + tick_count acts + (p - 1)) with (tick_count acts + 1 * p) by lia.
      rewrite Z.div_add by lia.
      replace (tick_count acts + (p - p)) with (tick_count acts) in IH by lia.
      lia.
    + specialize (IH f (c - 1) Hf ltac:(lia)).
      replace (1 + tick_count acts + (p - c))
        with (tick_count acts + (p - (c - 1))) by lia.
      exact IH.
  - simpl slot_schedule. simpl tick_count. unfold slot_query; simpl.
    destruct Hf as [-> | ->]; simpl.
    + specialize (IH 0 c ltac:(auto) Hc).
      destruct (slot_schedule acts _) as [rs t2]. simpl in *. lia.
    + specialize (IH 0 c ltac:(auto) Hc). unfold set_Flag; simpl.
      destruct (slot_schedule acts _) as [rs t2]. simpl in *. lia.
Qed.

(** The tick on an armed slot that nobody queries, in closed form. *)
Lemma iter_dec_once n p pl :
  0 < p <= UINT32_MAX ->
  Nat.iter n bsp_SoftTimerDec (mkTmr TMR_ONCE_MODE 0 p pl)
  = mkTmr TMR_ONCE_MODE (if p <=? Z.of_nat n then 1 else 0)
      (if Z.of_nat n <? p then p - Z.of_nat n else 0) pl.
Proof.
  intros Hp. induction n as [|n IH].
  - change (Z.of_nat 0) with 0. simpl Nat.iter.
    destruct (Z.leb_spec p 0); [lia|]. destruct (Z.ltb_spec 0 p); [|lia].
    f_equal; lia.
  - change (Nat.iter (S n) bsp_SoftTimerDec ?t)
      with (bsp_SoftTimerDec (Nat.iter n bsp_SoftTimerDec t)).
    rewrite IH, Nat2Z.inj_succ.
    destruct (Z.leb_spec p (Z.of_nat n)); destruct (Z.ltb_spec (Z.of_nat n) p);
      try lia;
      destruct (Z.leb_spec p (Z.succ (Z.of_nat n)));
      destruct (Z.ltb_spec (Z.succ (Z.of_nat n)) p); try lia;
      rewrite SoftTimerDec_once by (unfold UINT32_MAX in *; lia);
      repeat match goal with
             | |- context [Z.eqb ?a ?b] => destruct (Z.eqb_spec a b)
             end; try lia; f_equal; lia.
Qed.

Lemma iter_dec_auto n p :
  0 < p <= UINT32_MAX ->
  Nat.iter n bsp_SoftTimerDec (mkTmr TMR_AUTO_MODE 0 p p)
  = mkTmr TMR_AUTO_MODE (if p <=? Z.of_nat n then 1 else 0)
      (p - Z.of_nat n mod p) p.
Proof.
  intros Hp. induction n as [|n IH].
  - change (Z.of_nat 0) with 0. simpl Nat.iter. rewrite Z.mod_0_l by lia.
    destruct (Z.leb_spec p 0); [lia|]. f_equal; lia.
  - change (Nat.iter (S n) bsp_SoftTimerDec ?t)
      with (bsp_SoftTimerDec (Nat.iter n bsp_SoftTimerDec t)).
    pose proof (Z.mod_pos_bound (Z.of_nat n) p ltac:(lia)) as Hb.
    rewrite IH, SoftTimerDec_auto by lia.
    rewrite Nat2Z.inj_succ, <- Z.add_1_r, mod_succ by lia.
    destruct (Z.eqb_spec (p - Z.of_nat n mod p) 0); [lia|].
    destruct (Z.eqb_spec (p - Z.of_nat n mod p) 1) as [E|E];
      destruct (Z.eqb_spec (Z.of_nat n mod p + 1) p); try lia.
    + assert (p <= Z.of_nat n + 1).
      { pose proof (Z.mod_le (Z.of_nat n) p ltac:(lia) ltac:(lia)). lia. }
      destruct (Z.leb_spec p (Z.of_nat n + 1)); [|lia]. f_equal; lia.
    + assert (Hle : (p <=? Z.of_nat n + 1) = (p <=? Z.of_nat n)).
      { destruct (Z.leb_spec p (Z.of_nat n + 1));
          destruct (Z.leb_spec p (Z.of_nat n)); try lia.
        assert (Z.of_nat n = p - 1) by lia.
        rewrite Z.mod_small in * by lia. lia. }
      rewrite Hle. f_equal; lia.
Qed.

Section BankFurther.

Variable TMR_COUNT : nat.
Context {World : Type}.
Variables bsp_RunPer1ms bsp_RunPer10ms TPCRemarks : bsp_timer -> World -> World.

#[local] Abbreviation ISR := (SysTick_ISR TMR_COUNT bsp_RunPer1ms bsp_RunPer10ms TPCRemarks).
#[local] Abbreviation run := (ticks TMR_COUNT bsp_RunPer1ms bsp_RunPer10ms TPCRemarks).
#[local] Abbreviation sched := (schedule TMR_COUNT bsp_RunPer1ms bsp_RunPer10ms TPCRemarks).
#[local] Abbreviation wf := (bank_wf TMR_COUNT).

(** The query, seen from the slot it acts on. *)
Lemma CheckTimer_slot_query id st t :
  wf st -> s_tTmr st !! id = Some t ->
  fst (bsp_CheckTimer TMR_COUNT id st) = fst (slot_query t)
  /\ s_tTmr (snd (bsp_CheckTimer TMR_COUNT id st)) !! id = Some (snd (slot_query t))
  /\ wf (snd (bsp_CheckTimer TMR_COUNT id st)).
Proof.
  intros H Ht.
  assert (Hlt : (id < TMR_COUNT)%nat).
  { rewrite <- H. eapply lookup_lt_Some; eassumption. }
  unfold bsp_CheckTimer, slot_query.
  destruct (decide (TMR_COUNT <= id)%nat); [lia|].
  rewrite Ht. destruct (Flag t =? 1); simpl; [|auto].
  split; [reflexivity|]. split.
  - rewrite list_lookup_alter_eq, Ht. reflexivity.
  - unfold bank_wf; simpl. now rewrite length_alter.
Qed.

Lemma sched_slot id acts :
  forall (s : system World) t,
  wf (tm s) -> s_tTmr (tm s) !! id = Some t ->
  fst (sched id acts s) = fst (slot_schedule acts t)
  /\ s_tTmr (tm (snd (sched id acts s))) !! id = Some (snd (slot_schedule acts t))
  /\ wf (tm (snd (sched id acts s))).
Proof.
  induction acts as [|[|] acts IH]; intros s t H Ht.
  - simpl. auto.
  - simpl. apply IH.
    + now apply (wf_ISR TMR_COUNT).
    + now apply (slot_ISR TMR_COUNT).
  - destruct (CheckTimer_slot_query id (tm s) t H Ht) as (Hr & Hs & Hw).
    simpl. destruct (bsp_CheckTimer TMR_COUNT id (tm s)) as [r st1].
    destruct (slot_query t) as [r' t1]. simpl in *. subst r'.
    destruct (IH (with_tm st1 s) t1 Hw Hs) as (Ha & Hb & Hc).
    destruct (sched id acts (with_tm st1 s)) as [rs s2].
    destruct (slot_schedule acts t1) as [rs' t2]. simpl in *.
    subst rs'. auto.
Qed.

(** X2. A one-shot timer under any interleaving of ticks and queries: after
    [bsp_StartTimer(id, p)] with [p > 0] the queries report at most one
    expiry in all; and once [p] ticks have gone by the expiry is not lost:
    either a query has reported it, or the next query will. *)
Theorem one_shot_reports_once_under_any_interleaving
    (id : nat) (p : Z) (s : system World) (acts : list action) :
  wf (tm s) -> (id < TMR_COUNT)%nat -> 0 < p <= UINT32_MAX ->
  exists st1, bsp_StartTimer TMR_COUNT id p (tm s) = Returns st1
    /\ 0 <= expiries (fst (sched id acts (with_tm st1 s))) <= 1
    /\ (p <= tick_count acts ->
        expiries (fst (sched id acts (with_tm st1 s)))
        + fst (bsp_CheckTimer TMR_COUNT id
                 (tm (snd (sched id acts (with_tm st1 s))))) = 1).
Proof.
  intros H Hi Hp.
  destruct (StartTimer_slot TMR_COUNT id p (tm s) H Hi) as (st1 & Hst & Hs1 & Hw1).
  exists st1. split; [exact Hst|].
  destruct (sched_slot id acts (with_tm st1 s) _ Hw1 Hs1) as (Ha & Hb & Hc).
  rewrite Ha.
  pose proof (once_at_most_one acts 0 p p ltac:(left; lia)) as Hle.
  destruct (Z.eqb_spec p 0); [lia|]. simpl in Hle.
  split; [exact Hle|].
  intros Htc.
  destruct (once_conserved acts 0 p p ltac:(left; lia) Htc) as (Hsum & _).
  destruct (CheckTimer_slot_query id _ _ Hc Hb) as (Hq & _).
  rewrite Hq. unfold slot_query.
  destruct (Z.eqb_spec (Flag (snd (slot_schedule acts (mkTmr TMR_ONCE_MODE 0 p p)))) 1)
    as [E|E]; simpl; lia.
Qed.

(** X3. An auto-reload timer under any interleaving of ticks and queries:
    after [bsp_StartAutoTimer(id, p)] with [p > 0] the queries never report
    more expiries than the number of whole periods that have gone by. *)
Theorem auto_reload_reports_at_most_one_per_period
    (id : nat) (p : Z) (s : system World) (acts : list action) :
  wf (tm s) -> (id < TMR_COUNT)%nat -> 0 < p <= UINT32_MAX ->
  exists st1, bsp_StartAutoTimer TMR_COUNT id p (tm s) = Returns st1
    /\ 0 <= expiries (fst (sched id acts (with_tm st1 s)))
         <= tick_count acts / p.
Proof.
  intros H Hi Hp.
  destruct (StartAutoTimer_slot TMR_COUNT id p (tm s) H Hi)
    as (st1 & Hst & Hs1 & Hw1).
  exists st1. split; [exact Hst|].
  destruct (sched_slot id acts (with_tm st1 s) _ Hw1 Hs1) as (Ha & _).
  rewrite Ha.
  pose proof (auto_at_most_periods acts p Hp 0 p ltac:(auto) ltac:(lia)) as Hle.
  replace (tick_count acts + (p - p)) with (tick_count acts) in Hle by lia.
  lia.
Qed.

(** X4. An expiry that nobody queries stays latched: after
    [bsp_StartTimer(id, p)] with [p > 0] and [n] ticks without a query, the
    query answers 1 exactly when [n >= p], however late it comes, and the
    slot has stopped counting. *)
Theorem one_shot_expiry_stays_latched
    (id : nat) (p : Z) (s : system World) (n : nat) :
  wf (tm s) -> (id < TMR_COUNT)%nat -> 0 < p <= UINT32_MAX ->
  exists st1, bsp_StartTimer TMR_COUNT id p (tm s) = Returns st1
    /\ fst (bsp_CheckTimer TMR_COUNT id (tm (run n (with_tm st1 s))))
       = (if p <=? Z.of_nat n then 1 else 0)
    /\ exists t, s_tTmr (tm (run n (with_tm st1 s))) !! id = Some t
         /\ Count t = (if Z.of_nat n <? p then p - Z.of_nat n else 0).
Proof.
  intros H Hi Hp.
  destruct (StartTimer_slot TMR_COUNT id p (tm s) H Hi) as (st1 & Hst & Hs1 & Hw1).
  exists st1. split; [exact Hst|].
  pose proof (slot_run_ticks TMR_COUNT bsp_RunPer1ms bsp_RunPer10ms TPCRemarks
                n id (with_tm st1 s) _ Hw1 Hs1) as Hn.
  rewrite iter_dec_once in Hn by assumption.
  pose proof (wf_run TMR_COUNT bsp_RunPer1ms bsp_RunPer10ms TPCRemarks
                n (with_tm st1 s) Hw1) as Hwn.
  destruct (CheckTimer_slot_query id _ _ Hwn Hn) as (Hq & _).
  split.
  - rewrite Hq. unfold slot_query; simpl.
    destruct (p <=? Z.of_nat n); reflexivity.
  - eexists. split; [exact Hn | reflexivity].
Qed.

(** X5. Expiries of an auto-reload timer that nobody queries are merged:
    after [bsp_StartAutoTimer(id, p)] with [p > 0] and [n] ticks without a
    query, a first query answers 1 exactly when [n >= p] and a second one
    right after it answers 0, however many periods have gone by; the count
    goes on with the period, at [p - n mod p]. *)
Theorem auto_reload_unqueried_expiries_merge
    (id : nat) (p : Z) (s : system World) (n : nat) :
  wf (tm s) -> (id < TMR_COUNT)%nat -> 0 < p <= UINT32_MAX ->
  exists st1, bsp_StartAutoTimer TMR_COUNT id p (tm s) = Returns st1
    /\ fst (bsp_CheckTimer TMR_COUNT id (tm (run n (with_tm st1 s))))
       = (if p <=? Z.of_nat n then 1 else 0)
    /\ fst (bsp_CheckTimer TMR_COUNT id
              (snd (bsp_CheckTimer TMR_COUNT id (tm (run n (with_tm st1 s))))))
       = 0
    /\ exists t, s_tTmr (tm (run n (with_tm st1 s))) !! id = Some t
         /\ Count t = p - Z.of_nat n mod p.
Proof.
  intros H Hi Hp.
  destruct (StartAutoTimer_slot TMR_COUNT id p (tm s) H Hi)
    as (st1 & Hst & Hs1 & Hw1).
  exists st1. split; [exact Hst|].
  pose proof (slot_run_ticks TMR_COUNT bsp_RunPer1ms bsp_RunPer10ms TPCRemarks
                n id (with_tm st1 s) _ Hw1 Hs1) as Hn.
  rewrite iter_dec_auto in Hn by assumption.
  pose proof (wf_run TMR_COUNT bsp_RunPer1ms bsp_RunPer10ms TPCRemarks
                n (with_tm st1 s) Hw1) as Hwn.
  destruct (CheckTimer_slot_query id _ _ Hwn Hn) as (Hq & Hs2 & Hw2).
  split; [|split].
  - rewrite Hq. unfold slot_query; simpl.
    destruct (p <=? Z.of_nat n); reflexivity.
  - destruct (CheckTimer_slot_query id _ _ Hw2 Hs2) as (Hq2 & _).
    rewrite Hq2. unfold slot_query; simpl.
    destruct (p <=? Z.of_nat n); reflexivity.
  - eexists. split; [exact Hn | reflexivity].
Qed.

End BankFurther.

Section BankFrame.

Variable TMR_COUNT : nat.
Context {World : Type}.
Variables bsp_RunPer1ms bsp_RunPer10ms TPCRemarks : bsp_timer -> World -> World.

#[local] Abbreviation sched := (schedule TMR_COUNT bsp_RunPer1ms bsp_RunPer10ms TPCRemarks).
#[local] Abbreviation wf := (bank_wf TMR_COUNT).

(** Every foreground operation on slot [i] is, at most, an update of entry
    [i] of the bank. *)
Lemma foreground_op_shape i p st st1 :
  bsp_StartTimer TMR_COUNT i p st = Returns st1
  \/ bsp_StartAutoTimer TMR_COUNT i p st = Returns st1
  \/ bsp_StopTimer TMR_COUNT i st = Returns st1
  \/ st1 = snd (bsp_CheckTimer TMR_COUNT i st) ->
  st1 = st \/ exists f, st1 = set_tTmr (alter f i (s_tTmr st)) st.
Proof.
  unfold bsp_StartTimer, bsp_StartAutoTimer, bsp_StopTimer, bsp_CheckTimer.
  intros [H | [H | [H | H]]].
  - destruct (decide _); [discriminate|]. injection H as <-. eauto.
  - destruct (decide _); [discriminate|]. injection H as <-. eauto.
  - destruct (decide _); [discriminate|]. injection H as <-. eauto.
  - destruct (decide _); [now left|].
    destruct (s_tTmr st !! i) as [t|]; [|now left].
    destruct (Flag t =? 1); [|now left]. simpl in H. eauto.
Qed.

(** X6. The slots are independent, and the bank is apart from the delay and
    the clock: arming, stopping or querying slot [i] leaves every other slot,
    the delay countdown with its flag and the clock as they were, so the
    answers that any later sequence of ticks and queries gets from another
    slot [j] are the same as without that call. *)
Theorem slots_are_independent
    (i j : nat) (p : Z) (s : system World) (st1 : bsp_timer)
    (acts : list action) :
  wf (tm s) -> (j < TMR_COUNT)%nat -> i <> j ->
  bsp_StartTimer TMR_COUNT i p (tm s) = Returns st1
  \/ bsp_StartAutoTimer TMR_COUNT i p (tm s) = Returns st1
  \/ bsp_StopTimer TMR_COUNT i (tm s) = Returns st1
  \/ st1 = snd (bsp_CheckTimer TMR_COUNT i (tm s)) ->
  s_tTmr st1 !! j = s_tTmr (tm s) !! j
  /\ s_uiDelayCount st1 = s_uiDelayCount (tm s)
  /\ s_ucTimeOutFlag st1 = s_ucTimeOutFlag (tm s)
  /\ g_iRunTime st1 = g_iRunTime (tm s)
  /\ fst (sched j acts (with_tm st1 s)) = fst (sched j acts s).
Proof.
  intros H Hj Hij Hop.
  assert (Hshape : s_tTmr st1 !! j = s_tTmr (tm s) !! j
                   /\ s_uiDelayCount st1 = s_uiDelayCount (tm s)
                   /\ s_ucTimeOutFlag st1 = s_ucTimeOutFlag (tm s)
                   /\ g_iRunTime st1 = g_iRunTime (tm s)
                   /\ wf st1).
  { destruct (foreground_op_shape i p (tm s) st1 Hop) as [-> | [f ->]].
    - auto.
    - simpl. rewrite list_lookup_alter_ne by assumption.
      unfold bank_wf; simpl. rewrite length_alter. auto. }
  destruct Hshape as (Hs & Hd & Hf & Hr & Hw).
  repeat (split; [assumption|]).
  unfold bank_wf in H.
  destruct (lookup_lt_is_Some_2 (s_tTmr (tm s)) j ltac:(lia)) as [t Ht].
  destruct (sched_slot TMR_COUNT bsp_RunPer1ms bsp_RunPer10ms TPCRemarks
              j acts s t H Ht) as (-> & _).
  rewrite <- Hs in Ht.
  destruct (sched_slot TMR_COUNT bsp_RunPer1ms bsp_RunPer10ms TPCRemarks
              j acts (with_tm st1 s) t Hw Ht) as (-> & _).
  reflexivity.
Qed.

Lemma CheckTimer_cases id st :
  bsp_CheckTimer TMR_COUNT id st = (0, st)
  \/ exists t, s_tTmr st !! id = Some t /\ Flag t = 1
       /\ bsp_CheckTimer TMR_COUNT id st
          = (1, set_tTmr (alter (set_Flag 0) id (s_tTmr st)) st).
Proof.
  unfold bsp_CheckTimer.
  destruct (decide (TMR_COUNT <= id)%nat); [now left|].
  destruct (s_tTmr st !! id) as [t|]; [|now left].
  destruct (Z.eqb_spec (Flag t) 1); [|now left].
  right. exists t. auto.
Qed.

(** X7. The query consumes, in every state and for every identifier: right
    after a query a second one answers 0 and changes nothing; and a query
    never touches a count, a reload value or a mode, nor any other slot's
    flag. *)
Theorem query_consumes_and_leaves_counts (id : nat) (st : bsp_timer) :
  let st1 := snd (bsp_CheckTimer TMR_COUNT id st) in
  bsp_CheckTimer TMR_COUNT id st1 = (0, st1)
  /\ length (s_tTmr st1) = length (s_tTmr st)
  /\ (forall j t, s_tTmr st !! j = Some t ->
        exists t1, s_tTmr st1 !! j = Some t1
          /\ Count t1 = Count t /\ PreLoad t1 = PreLoad t /\ Mode t1 = Mode t
          /\ (j <> id -> Flag t1 = Flag t)).
Proof using TMR_COUNT.
  intros st1. subst st1.
  destruct (CheckTimer_cases id st) as [E | (t & Ht & Hf & E)].
  - rewrite E. simpl. rewrite E.
    split; [reflexivity|]. split; [reflexivity|].
    intros j u Hu. exists u. repeat (split; [assumption || reflexivity|]).
    intros _. reflexivity.
  - rewrite E. simpl. split; [|split].
    + destruct t as [m f c pl]. eapply CheckTimer_idle. simpl.
      rewrite list_lookup_alter_eq, Ht. reflexivity.
    + apply length_alter.
    + intros j u Hu. destruct (Nat.eq_dec id j) as [<-|Hne].
      * rewrite list_lookup_alter_eq, Hu. simpl.
        eexists. split; [reflexivity|]. simpl.
        repeat (split; [reflexivity|]). intros Hjj. now contradiction Hjj.
      * rewrite list_lookup_alter_ne by assumption.
        exists u. repeat (split; [assumption || reflexivity|]).
        intros _. reflexivity.
Qed.

Lemma sched_out_of_range id acts :
  forall s : system World,
  (TMR_COUNT <= id)%nat -> Forall (fun r => r = 0) (fst (sched id acts s)).
Proof.
  induction acts as [|[|] acts IH]; intros s Hid; simpl.
  - constructor.
  - now apply IH.
  - unfold bsp_CheckTimer. destruct (decide _); [|contradiction].
    specialize (IH (with_tm (tm s) s) Hid).
    destruct (sched id acts (with_tm (tm s) s)) as [rs s']. simpl in *.
    constructor; auto.
Qed.

(** X8. [SysTickTimer_Init]'s loop on a running module disarms every slot
    and touches nothing else: the delay countdown, its flag and the clock
    keep their values.  After it no query of any identifier answers 1,
    whatever the ticks and queries, until a slot is armed again. *)
Theorem init_disarms_every_slot
    (id : nat) (s : system World) (acts : list action) :
  wf (tm s) ->
  SysTickTimer_Init_loop TMR_COUNT (tm s)
  = mkBsp (s_uiDelayCount (tm s)) (s_ucTimeOutFlag (tm s))
      (replicate TMR_COUNT (mkTmr TMR_ONCE_MODE 0 0 0)) (g_iRunTime (tm s))
  /\ Forall (fun r => r = 0)
       (fst (sched id acts (with_tm (SysTickTimer_Init_loop TMR_COUNT (tm s)) s))).
Proof.
  intros H.
  assert (E : SysTickTimer_Init_loop TMR_COUNT (tm s)
              = mkBsp (s_uiDelayCount (tm s)) (s_ucTimeOutFlag (tm s))
                  (replicate TMR_COUNT (mkTmr TMR_ONCE_MODE 0 0 0))
                  (g_iRunTime (tm s))).
  { pose proof (init_loop_slots TMR_COUNT (tm s) H) as Hs.
    unfold SysTickTimer_Init_loop, set_tTmr in *. simpl in *. now rewrite Hs. }
  split; [exact E|]. rewrite E.
  destruct (le_lt_dec TMR_COUNT id) as [Hge|Hlt].
  - now apply sched_out_of_range.
  - eapply (inert_schedule TMR_COUNT bsp_RunPer1ms bsp_RunPer10ms TPCRemarks).
    + unfold bank_wf; simpl. apply length_replicate.
    + simpl. now apply lookup_replicate_2.
Qed.

End BankFrame.

(** ** Time measured with the clock *)

(** The elapsed-time function is the difference modulo the wrap point. *)
Lemma CheckRunTime_mod st last :
  0 <= g_iRunTime st < RUNTIME_WRAP -> 0 <= last <= RUNTIME_WRAP ->
  bsp_CheckRunTime last st = (g_iRunTime st - last) mod RUNTIME_WRAP.
Proof.
  intros Hn Hl. unfold bsp_CheckRunTime. unfold RUNTIME_WRAP in *.
  destruct (Z.leb_spec last (g_iRunTime st)).
  - rewrite int32_small by (unfold INT32_MIN, INT32_MAX; lia).
    symmetry. apply Z.mod_small. lia.
  - rewrite (int32_small (_ - last)) by (unfold INT32_MIN, INT32_MAX; lia).
    rewrite int32_small by (unfold INT32_MIN, INT32_MAX; lia).
    apply (Z.mod_unique _ _ (-1)); lia.
Qed.

(** X9. For a clock reading [last] taken earlier (any value from 0 to the
    wrap point), [bsp_CheckRunTime] returns the difference between the clock
    and [last] modulo [0x7FFFFFFF]: a value from 0 to [0x7FFFFFFE], never
    negative, whether or not the clock has wrapped in between. *)
Theorem elapsed_is_difference_modulo_wrap (st : bsp_timer) (last : Z) :
  0 <= g_iRunTime st < RUNTIME_WRAP -> 0 <= last <= RUNTIME_WRAP ->
  bsp_CheckRunTime last st = (bsp_GetRunTime st - last) mod RUNTIME_WRAP
  /\ 0 <= bsp_CheckRunTime last st < RUNTIME_WRAP.
Proof.
  intros Hn Hl. rewrite CheckRunTime_mod by assumption.
  split; [reflexivity|]. apply Z.mod_pos_bound. reflexivity.
Qed.

Section ClockAndDelay.

Variable TMR_COUNT : nat.
Context {World : Type}.
Variables bsp_RunPer1ms bsp_RunPer10ms TPCRemarks : bsp_timer -> World -> World.

#[local] Abbreviation ISR := (SysTick_ISR TMR_COUNT bsp_RunPer1ms bsp_RunPer10ms TPCRemarks).
#[local] Abbreviation run := (ticks TMR_COUNT bsp_RunPer1ms bsp_RunPer10ms TPCRemarks).
#[local] Abbreviation runN := (ticksN TMR_COUNT bsp_RunPer1ms bsp_RunPer10ms TPCRemarks).
#[local] Abbreviation wait := (delay_wait TMR_COUNT bsp_RunPer1ms bsp_RunPer10ms TPCRemarks).
#[local] Abbreviation DelayMS := (bsp_DelayMS TMR_COUNT bsp_RunPer1ms bsp_RunPer10ms TPCRemarks).
#[local] Abbreviation wf := (bank_wf TMR_COUNT).

Lemma clock_ticks (n : nat) (s : system World) :
  0 <= g_iRunTime (tm s) < RUNTIME_WRAP ->
  g_iRunTime (tm (run n s)) = (g_iRunTime (tm s) + Z.of_nat n) mod RUNTIME_WRAP.
Proof.
  intros H. induction n as [|n IH].
  - change (run 0 s) with s. change (Z.of_nat 0) with 0.
    rewrite Z.add_0_r. symmetry. now apply Z.mod_small.
  - change (run (S n) s) with (ISR (run n s)).
    rewrite (clock_tick_mod TMR_COUNT).
    + rewrite IH, Zplus_mod_idemp_l. f_equal. lia.
    + rewrite IH. apply Z.mod_pos_bound. reflexivity.
Qed.

(** X10. Reading the clock, letting [n] ticks go by and asking for the
    elapsed time gives [n] modulo [0x7FFFFFFF]: exactly [n] for any interval
    shorter than the wrap period, across the wrap too, and [n] less the
    whole wrap periods otherwise. *)
Theorem elapsed_after_ticks (s : system World) (n : N) :
  0 <= g_iRunTime (tm s) < RUNTIME_WRAP ->
  bsp_CheckRunTime (bsp_GetRunTime (tm s)) (tm (runN n s))
  = Z.of_N n mod RUNTIME_WRAP
  /\ (Z.of_N n < RUNTIME_WRAP ->
      bsp_CheckRunTime (bsp_GetRunTime (tm s)) (tm (runN n s)) = Z.of_N n).
Proof.
  intros H.
  assert (E : bsp_CheckRunTime (bsp_GetRunTime (tm s)) (tm (runN n s))
              = Z.of_N n mod RUNTIME_WRAP).
  { unfold bsp_GetRunTime. rewrite CheckRunTime_mod.
    - rewrite (clock_ticksN TMR_COUNT) by assumption.
      rewrite Zminus_mod_idemp_l. f_equal. lia.
    - rewrite (clock_ticksN TMR_COUNT) by assumption.
      apply Z.mod_pos_bound. reflexivity.
    - lia. }
  split; [exact E|]. intros Hn. rewrite E. apply Z.mod_small. lia.
Qed.

(** The polling loop on an armed countdown. *)
Lemma delay_wait_armed fuel c (s : system World) :
  s_uiDelayCount (tm s) = c -> s_ucTimeOutFlag (tm s) = 0 ->
  0 < c <= UINT32_MAX ->
  wait fuel s
  = if (Z.to_nat c <=? fuel)%nat then Some (Z.to_nat c, run (Z.to_nat c) s)
    else None.
Proof.
  intros Hc Hf Hr.
  assert (Hbefore : forall j, (j < Z.to_nat c)%nat ->
            s_ucTimeOutFlag (tm (run j s)) <> 1).
  { intros j Hj.
    destruct (delay_countdown TMR_COUNT bsp_RunPer1ms bsp_RunPer10ms TPCRemarks
                j c s Hc Hf Hr ltac:(lia)) as (_ & ->).
    destruct (Z.eqb_spec (Z.of_nat j) c); [lia | discriminate]. }
  destruct (Nat.leb_spec (Z.to_nat c) fuel).
  - apply (delay_wait_first TMR_COUNT); [exact Hbefore | | assumption].
    destruct (delay_countdown TMR_COUNT bsp_RunPer1ms bsp_RunPer10ms TPCRemarks
                (Z.to_nat c) c s Hc Hf Hr ltac:(lia)) as (_ & ->).
    rewrite Z2Nat.id by lia. now rewrite Z.eqb_refl.
  - apply (delay_wait_starved TMR_COUNT). intros j Hj. apply Hbefore. lia.
Qed.

(** X11. A blocking delay, measured with the clock and seen from the timer
    bank: when [bsp_DelayMS(n)] returns, the elapsed time since a clock
    reading taken just before the call is [n] ticks ([2] for [n = 1], [0]
    for [n = 0]), and every software timer has been ticked that many times:
    the bank keeps counting while the caller is blocked. *)
Theorem delay_ms_measured_by_clock
    (n : Z) (fuel : nat) (s : system World) (k : nat) (s' : system World) :
  wf (tm s) -> 0 <= g_iRunTime (tm s) < RUNTIME_WRAP ->
  0 <= n < RUNTIME_WRAP ->
  DelayMS n fuel s = Some (k, s') ->
  Z.of_nat k = (if n =? 1 then 2 else n)
  /\ bsp_CheckRunTime (bsp_GetRunTime (tm s)) (tm s') = Z.of_nat k
  /\ s_tTmr (tm s') = Nat.iter k (fmap bsp_SoftTimerDec) (s_tTmr (tm s)).
Proof.
  intros Hw Hclk Hn Hd. unfold bsp_DelayMS in Hd.
  destruct (Z.eqb_spec n 0) as [->|Hn0].
  { injection Hd as <- <-. simpl. split; [reflexivity|]. split; [|reflexivity].
    unfold bsp_GetRunTime. rewrite CheckRunTime_mod by lia.
    rewrite Z.sub_diag. reflexivity. }
  set (c := if n =? 1 then 2 else n) in *.
  assert (Hc : 0 < c <= UINT32_MAX).
  { subst c. unfold RUNTIME_WRAP, UINT32_MAX in *. destruct (n =? 1); lia. }
  assert (Hcw : c < RUNTIME_WRAP).
  { subst c. unfold RUNTIME_WRAP in *. destruct (Z.eqb_spec n 1); lia. }
  rewrite (delay_wait_armed fuel c) in Hd by (try reflexivity; exact Hc).
  destruct (Z.to_nat c <=? fuel)%nat; [|discriminate].
  injection Hd as <- <-.
  split; [lia|]. split.
  - unfold bsp_GetRunTime. rewrite CheckRunTime_mod.
    + rewrite clock_ticks by exact Hclk. simpl g_iRunTime.
      rewrite Zminus_mod_idemp_l.
      replace (g_iRunTime (tm s) + Z.of_nat (Z.to_nat c) - g_iRunTime (tm s))
        with (Z.of_nat (Z.to_nat c)) by lia.
      apply Z.mod_small. lia.
    + rewrite clock_ticks by exact Hclk. apply Z.mod_pos_bound. reflexivity.
    + lia.
  - generalize (Z.to_nat c). intros m. induction m as [|m IH]; [reflexivity|].
    change (run (S m) ?x) with (ISR (run m x)).
    rewrite (s_tTmr_ISR TMR_COUNT).
    + rewrite IH. reflexivity.
    + apply (wf_run TMR_COUNT). exact Hw.
Qed.

End ClockAndDelay.

(** ** The microsecond delay on a counter that stands still *)

Lemma us_loop_frozen reload ticks told tcnt reads :
  Forall (fun v => v = told) reads ->
  us_loop reload ticks told tcnt reads = None.
Proof.
  induction 1 as [|v rest -> _ IH]; simpl; [reflexivity|].
  now rewrite Z.eqb_refl, IH.
Qed.

(** X12. [bsp_DelayUS] returns on a change of the hardware counter only.
    While every reading equals the first one (the counter is not running)
    the call does not return, whatever [n]; and with a target of 0 ticks
    ([n = 0], or a core clock below 1 MHz) it still waits for the first
    reading that differs, and returns on it. *)
Theorem delay_us_waits_for_a_change
    (SystemCoreClock reload n told v : Z) (same : nat) (rest : list Z) :
  v <> told ->
  n = 0 \/ 0 <= SystemCoreClock < 1000000 ->
  (forall n', bsp_DelayUS SystemCoreClock reload n' (told :: replicate same told)
              = None)
  /\ bsp_DelayUS SystemCoreClock reload n
       (told :: replicate same told ++ v :: rest)
     = Some (S same, us_accumulate reload told v 0).
Proof.
  intros Hv Hzero. split.
  - intros n'. unfold bsp_DelayUS. apply us_loop_frozen.
    now apply Forall_replicate.
  - assert (Ht : us_to_ticks SystemCoreClock n = 0).
    { unfold us_to_ticks. destruct Hzero as [-> | Hclk].
      - reflexivity.
      - rewrite Z.div_small by lia. now rewrite Z.mul_0_r. }
    unfold bsp_DelayUS. rewrite Ht.
    induction same as [|m IH]; simpl.
    + destruct (Z.eqb_spec v told); [contradiction|].
      assert (H0 : 0 <= us_accumulate reload told v 0).
      { rewrite us_accumulate_decrease by assumption. apply uint32_range. }
      destruct (Z.leb_spec 0 (us_accumulate reload told v 0)); [reflexivity | lia].
    + rewrite Z.eqb_refl, IH. reflexivity.
Qed.

(** * The further properties on concrete runs *)

Lemma reachable_state_in_range_witness :
  reachable 4 no_hook no_hook no_hook
    (SysTick_Handler 4 no_hook no_hook no_hook boot4)
  /\ 0 <= bsp_GetRunTime (tm (SysTick_Handler 4 no_hook no_hook no_hook boot4))
       < RUNTIME_WRAP
  /\ 0 <= s_count (SysTick_Handler 4 no_hook no_hook no_hook boot4) < 10.
Proof.
  assert (Hr : reachable 4 no_hook no_hook no_hook
                 (SysTick_Handler 4 no_hook no_hook no_hook boot4)).
  { apply reach_tick. apply (reach_boot 4 no_hook no_hook no_hook tt). }
  split; [exact Hr|].
  destruct (reachable_state_in_range 4 no_hook no_hook no_hook _ Hr)
    as (_ & _ & _ & _ & Hclk & Hc).
  split; [exact Hclk | exact Hc].
Defined.

Lemma one_shot_reports_once_under_any_interleaving_witness :
  bank_wf 4 (tm boot4) /\ (2 < 4)%nat /\ 0 < 2 <= UINT32_MAX
  /\ exists st1, bsp_StartTimer 4 2 2 (tm boot4) = Returns st1
       /\ 0 <= expiries (fst (schedule 4 no_hook no_hook no_hook 2
                                [Tick; Query; Tick; Tick; Query; Tick; Query]
                                (with_tm st1 boot4))) <= 1.
Proof.
  assert (Hw : bank_wf 4 (tm boot4)) by reflexivity.
  assert (Hi : (2 < 4)%nat) by lia.
  assert (Hp : 0 < 2 <= UINT32_MAX) by (unfold UINT32_MAX; lia).
  split; [exact Hw|]. split; [exact Hi|]. split; [exact Hp|].
  destruct (one_shot_reports_once_under_any_interleaving 4
              no_hook no_hook no_hook 2 2 boot4
              [Tick; Query; Tick; Tick; Query; Tick; Query] Hw Hi Hp)
    as (st1 & Hst & Hle & _).
  exists st1. split; [exact Hst | exact Hle].
Defined.

Lemma auto_reload_reports_at_most_one_per_period_witness :
  bank_wf 4 (tm boot4) /\ (0 < 4)%nat /\ 0 < 2 <= UINT32_MAX
  /\ exists st1, bsp_StartAutoTimer 4 0 2 (tm boot4) = Returns st1
       /\ 0 <= expiries (fst (schedule 4 no_hook no_hook no_hook 0
                                [Tick; Tick; Tick; Tick; Query; Query; Tick; Query]
                                (with_tm st1 boot4)))
            <= tick_count [Tick; Tick; Tick; Tick; Query; Query; Tick; Query] / 2.
Proof.
  assert (Hw : bank_wf 4 (tm boot4)) by reflexivity.
  assert (Hi : (0 < 4)%nat) by lia.
  assert (Hp : 0 < 2 <= UINT32_MAX) by (unfold UINT32_MAX; lia).
  split; [exact Hw|]. split; [exact Hi|]. split; [exact Hp|].
  exact (auto_reload_reports_at_most_one_per_period 4
           no_hook no_hook no_hook 0 2 boot4
           [Tick; Tick; Tick; Tick; Query; Query; Tick; Query] Hw Hi Hp).
Defined.

Lemma one_shot_expiry_stays_latched_witness :
  bank_wf 4 (tm boot4) /\ (3 < 4)%nat /\ 0 < 2 <= UINT32_MAX
  /\ exists st1, bsp_StartTimer 4 3 2 (tm boot4) = Returns st1
       /\ fst (bsp_CheckTimer 4 3
                 (tm (ticks 4 no_hook no_hook no_hook 7 (with_tm st1 boot4)))) = 1.
Proof.
  assert (Hw : bank_wf 4 (tm boot4)) by reflexivity.
  assert (Hi : (3 < 4)%nat) by lia.
  assert (Hp : 0 < 2 <= UINT32_MAX) by (unfold UINT32_MAX; lia).
  split; [exact Hw|]. split; [exact Hi|]. split; [exact Hp|].
  destruct (one_shot_expiry_stays_latched 4 no_hook no_hook no_hook
              3 2 boot4 7 Hw Hi Hp) as (st1 & Hst & Hq & _).
  exists st1. split; [exact Hst | exact Hq].
Defined.

Lemma auto_reload_unqueried_expiries_merge_witness :
  bank_wf 4 (tm boot4) /\ (3 < 4)%nat /\ 0 < 2 <= UINT32_MAX
  /\ exists st1, bsp_StartAutoTimer 4 3 2 (tm boot4) = Returns st1
       /\ fst (bsp_CheckTimer 4 3
                 (tm (ticks 4 no_hook no_hook no_hook 7 (with_tm st1 boot4)))) = 1
       /\ fst (bsp_CheckTimer 4 3
                 (snd (bsp_CheckTimer 4 3
                         (tm (ticks 4 no_hook no_hook no_hook 7
                                (with_tm st1 boot4)))))) = 0.
Proof.
  assert (Hw : bank_wf 4 (tm boot4)) by reflexivity.
  assert (Hi : (3 < 4)%nat) by lia.
  assert (Hp : 0 < 2 <= UINT32_MAX) by (unfold UINT32_MAX; lia).
  split; [exact Hw|]. split; [exact Hi|]. split; [exact Hp|].
  destruct (auto_reload_unqueried_expiries_merge 4 no_hook no_hook no_hook
              3 2 boot4 7 Hw Hi Hp) as (st1 & Hst & Hq & Hq2 & _).
  exists st1. split; [exact Hst|]. split; [exact Hq | exact Hq2].
Defined.

Lemma slots_are_independent_witness :
  bank_wf 4 (tm busy4) /\ (1 < 4)%nat /\ 0%nat <> 1%nat
  /\ bsp_StartAutoTimer 4 0 3 (tm busy4)
     = Returns (mkBsp 6 0
                  [mkTmr TMR_AUTO_MODE 0 3 3; mkTmr TMR_AUTO_MODE 1 3 4;
                   mkTmr TMR_ONCE_MODE 1 0 9; mkTmr TMR_AUTO_MODE 1 2 2]
                  17)
  /\ fst (schedule 4 no_hook no_hook no_hook 1
            [Query; Tick; Tick; Tick; Query; Query; Tick; Tick; Tick; Tick; Query]
            (with_tm (mkBsp 6 0
                        [mkTmr TMR_AUTO_MODE 0 3 3; mkTmr TMR_AUTO_MODE 1 3 4;
                         mkTmr TMR_ONCE_MODE 1 0 9; mkTmr TMR_AUTO_MODE 1 2 2]
                        17) busy4))
     = fst (schedule 4 no_hook no_hook no_hook 1
              [Query; Tick; Tick; Tick; Query; Query; Tick; Tick; Tick; Tick; Query]
              busy4)
  /\ fst (schedule 4 no_hook no_hook no_hook 1
            [Query; Tick; Tick; Tick; Query; Query; Tick; Tick; Tick; Tick; Query]
            busy4)
     = [1; 1; 0; 1].
Proof.
  assert (Hw : bank_wf 4 (tm busy4)) by reflexivity.
  assert (Hj : (1 < 4)%nat) by lia.
  assert (Hij : 0%nat <> 1%nat) by discriminate.
  assert (Hop : bsp_StartAutoTimer 4 0 3 (tm busy4)
                = Returns (mkBsp 6 0
                             [mkTmr TMR_AUTO_MODE 0 3 3; mkTmr TMR_AUTO_MODE 1 3 4;
                              mkTmr TMR_ONCE_MODE 1 0 9; mkTmr TMR_AUTO_MODE 1 2 2]
                             17)) by reflexivity.
  split; [exact Hw|]. split; [exact Hj|]. split; [exact Hij|].
  split; [exact Hop|].
  destruct (slots_are_independent 4 no_hook no_hook no_hook 0 1 3 busy4 _
              [Query; Tick; Tick; Tick; Query; Query; Tick; Tick; Tick; Tick; Query]
              Hw Hj Hij (or_intror (or_introl Hop)))
    as (_ & _ & _ & _ & H).
  split; [exact H | reflexivity].
Defined.

Lemma query_consumes_and_leaves_counts_witness :
  s_tTmr (mkBsp 0 0 [mkTmr TMR_AUTO_MODE 1 7 9] 0) !! 0%nat
  = Some (mkTmr TMR_AUTO_MODE 1 7 9)
  /\ exists t1,
       s_tTmr (snd (bsp_CheckTimer 1 0 (mkBsp 0 0 [mkTmr TMR_AUTO_MODE 1 7 9] 0)))
         !! 0%nat = Some t1
       /\ Count t1 = 7 /\ PreLoad t1 = 9 /\ Mode t1 = TMR_AUTO_MODE.
Proof.
  assert (Hl : s_tTmr (mkBsp 0 0 [mkTmr TMR_AUTO_MODE 1 7 9] 0) !! 0%nat
               = Some (mkTmr TMR_AUTO_MODE 1 7 9)) by reflexivity.
  split; [exact Hl|].
  destruct (query_consumes_and_leaves_counts 1 0
              (mkBsp 0 0 [mkTmr TMR_AUTO_MODE 1 7 9] 0)) as (_ & _ & H).
  destruct (H 0%nat _ Hl) as (t1 & Ht1 & Hc & Hp & Hm & _).
  exists t1. auto.
Defined.

Lemma init_disarms_every_slot_witness :
  bank_wf 4 (tm busy4)
  /\ fst (schedule 4 no_hook no_hook no_hook 3 [Query; Tick; Tick; Query] busy4)
     = [1; 1]
  /\ SysTickTimer_Init_loop 4 (tm busy4)
     = mkBsp 6 0 (replicate 4 (mkTmr TMR_ONCE_MODE 0 0 0)) 17
  /\ Forall (fun r => r = 0)
       (fst (schedule 4 no_hook no_hook no_hook 3 [Query; Tick; Tick; Query]
               (with_tm (SysTickTimer_Init_loop 4 (tm busy4)) busy4))).
Proof.
  assert (Hw : bank_wf 4 (tm busy4)) by reflexivity.
  split; [exact Hw|]. split; [reflexivity|].
  exact (init_disarms_every_slot 4 no_hook no_hook no_hook 3 busy4
           [Query; Tick; Tick; Query] Hw).
Defined.

Lemma elapsed_is_difference_modulo_wrap_witness :
  0 <= g_iRunTime (set_RunTime 3 (SysTickTimer_Init 4)) < RUNTIME_WRAP
  /\ 0 <= 2147483640 <= RUNTIME_WRAP
  /\ bsp_CheckRunTime 2147483640 (set_RunTime 3 (SysTickTimer_Init 4))
     = (bsp_GetRunTime (set_RunTime 3 (SysTickTimer_Init 4)) - 2147483640)
         mod RUNTIME_WRAP.
Proof.
  assert (Hn : 0 <= g_iRunTime (set_RunTime 3 (SysTickTimer_Init 4)) < RUNTIME_WRAP)
    by (simpl; unfold RUNTIME_WRAP; lia).
  assert (Hl : 0 <= 2147483640 <= RUNTIME_WRAP) by (unfold RUNTIME_WRAP; lia).
  split; [exact Hn|]. split; [exact Hl|].
  exact (proj1 (elapsed_is_difference_modulo_wrap _ _ Hn Hl)).
Defined.

Lemma elapsed_after_ticks_witness :
  0 <= g_iRunTime (tm boot4) < RUNTIME_WRAP
  /\ bsp_CheckRunTime (bsp_GetRunTime (tm boot4))
       (tm (ticksN 4 no_hook no_hook no_hook 25 boot4)) = 25.
Proof.
  assert (Hn : 0 <= g_iRunTime (tm boot4) < RUNTIME_WRAP)
    by (simpl; unfold RUNTIME_WRAP; lia).
  split; [exact Hn|].
  destruct (elapsed_after_ticks 4 no_hook no_hook no_hook boot4 25 Hn) as (_ & H).
  apply H. unfold RUNTIME_WRAP. reflexivity.
Defined.

Lemma delay_ms_measured_by_clock_witness :
  bank_wf 4 (tm boot4) /\ 0 <= g_iRunTime (tm boot4) < RUNTIME_WRAP
  /\ 0 <= 1 < RUNTIME_WRAP
  /\ bsp_DelayMS 4 no_hook no_hook no_hook 1 5 boot4
     = Some (2%nat, ticks 4 no_hook no_hook no_hook 2
                      (with_tm (delay_arm 2 (tm boot4)) boot4))
  /\ bsp_CheckRunTime (bsp_GetRunTime (tm boot4))
       (tm (ticks 4 no_hook no_hook no_hook 2
              (with_tm (delay_arm 2 (tm boot4)) boot4))) = 2.
Proof.
  assert (Hw : bank_wf 4 (tm boot4)) by reflexivity.
  assert (Hn : 0 <= g_iRunTime (tm boot4) < RUNTIME_WRAP)
    by (simpl; unfold RUNTIME_WRAP; lia).
  assert (H1 : 0 <= 1 < RUNTIME_WRAP) by (unfold RUNTIME_WRAP; lia).
  assert (Hd : bsp_DelayMS 4 no_hook no_hook no_hook 1 5 boot4
               = Some (2%nat, ticks 4 no_hook no_hook no_hook 2
                                (with_tm (delay_arm 2 (tm boot4)) boot4)))
    by reflexivity.
  split; [exact Hw|]. split; [exact Hn|]. split; [exact H1|]. split; [exact Hd|].
  destruct (delay_ms_measured_by_clock 4 no_hook no_hook no_hook
              1 5 boot4 _ _ Hw Hn H1 Hd) as (_ & H & _).
  exact H.
Defined.

Lemma delay_us_waits_for_a_change_witness :
  90 <> 100 /\ (0 = 0 \/ 0 <= 168000000 < 1000000)
  /\ bsp_DelayUS 168000000 167999 0 (100 :: replicate 3 100 ++ 90 :: [80])
     = Some (4%nat, us_accumulate 167999 100 90 0).
Proof.
  assert (Hv : 90 <> 100) by discriminate.
  assert (Hz : 0 = 0 \/ 0 <= 168000000 < 1000000) by (left; reflexivity).
  split; [exact Hv|]. split; [exact Hz|].
  exact (proj2 (delay_us_waits_for_a_change 168000000 167999 0 100 90 3 [80]
                  Hv Hz)).
Defined.
